(** * Arya broker authentication: URL registry and three-stage login

    A shallow embedding of [broker/aryafingroup/baseurl.py] (class [URLConfig])
    and [broker/aryafingroup/api/auth_api.py] ([hostlookup_login],
    [authenticate_broker], [get_feed_token]), followed by the properties of
    the request chain and of the URL registry.

    Python values coming out of [response.json()] are modelled by [Json],
    with [JNull] standing for [None].  Code that can raise runs in the monad
    [M], a state monad over the class attributes of [URLConfig] and the list
    of POST requests issued so far, with a [Raise] outcome for a Python
    [Exception].  Logging and [print] calls are left out: they neither raise
    nor change what the functions return. *)

From Stdlib Require Import String Ascii List ZArith Bool Lia.
From Stdlib Require Import DecimalString.
Import ListNotations.
Open Scope string_scope.
Set Warnings "-register-all".

(* ================================================================= *)
(** ** Python values *)

(** A decoded JSON value; numbers are the integers. *)
Inductive Json : Type :=
| JNull
| JBool (b : bool)
| JNum (z : Z)
| JStr (s : string)
| JArr (items : list Json)
| JObj (fields : list (string * Json)).

(** A Python [Exception] (what [except Exception] catches), by class.  [AttributeError] and [TypeError] carry
    the type name of the receiver and the attribute or key asked for;
    [TransportError] and [DecodeError] are what the HTTP client and
    [response.json()] raise, with the detail the library attached. *)
Inductive Exn : Type :=
| AttributeError (type_name attr : string)
| KeyError (key : string)
| TypeError (type_name key : string)
| ValueError (msg : string)
| TransportError (detail : string)
| DecodeError (detail : string).

Inductive Result (A : Type) : Type :=
| Ok (a : A)
| Raise (e : Exn).
Arguments Ok {A} a.
Arguments Raise {A} e.

(** [type(v).__name__] *)
Definition py_type_name (v : Json) : string :=
  match v with
  | JNull => "NoneType"
  | JBool _ => "bool"
  | JNum _ => "int"
  | JStr _ => "str"
  | JArr _ => "list"
  | JObj _ => "dict"
  end.

(** [bool(v)]: the truth value Python gives a decoded JSON value. *)
Definition truthy (v : Json) : bool :=
  match v with
  | JNull => false
  | JBool b => b
  | JNum z => negb (z =? 0)%Z
  | JStr s => negb (s =? "")
  | JArr l => match l with [] => false | _ => true end
  | JObj l => match l with [] => false | _ => true end
  end.

(** Key lookup in a decoded JSON object. *)
Fixpoint assoc (k : string) (l : list (string * Json)) : option Json :=
  match l with
  | [] => None
  | (k', v) :: l' => if k =? k' then Some v else assoc k l'
  end.

(** [v.get(k, default)]: only a dict has the method. *)
Definition py_get_default (v : Json) (k : string) (default : Json) : Result Json :=
  match v with
  | JObj l => Ok (match assoc k l with Some x => x | None => default end)
  | _ => Raise (AttributeError (py_type_name v) "get")
  end.

(** [v.get(k)] *)
Definition py_get (v : Json) (k : string) : Result Json :=
  py_get_default v k JNull.

(** [v[k]] with a string key. *)
Definition py_getitem (v : Json) (k : string) : Result Json :=
  match v with
  | JObj l => match assoc k l with Some x => Ok x | None => Raise (KeyError k) end
  | _ => Raise (TypeError (py_type_name v) k)
  end.

(** [v == s] for a string literal [s]. *)
Definition py_eq_str (v : Json) (s : string) : bool :=
  match v with
  | JStr s' => s' =? s
  | _ => false
  end.

(** [os.getenv] returns a string or [None]. *)
Definition json_of_option (o : option string) : Json :=
  match o with
  | Some s => JStr s
  | None => JNull
  end.

(* ================================================================= *)
(** ** The environment of a run *)

Record Response : Type := {
  status_code : Z;
  json : Result Json   (* what [response.json()] does *)
}.

Record Request : Type := {
  req_url : string;
  req_json : Json;
  req_headers : list (string * string)
}.

Inductive PostOutcome : Type :=
| PostRaises (e : Exn)
| PostReturns (r : Response).

(** Everything the two modules take from outside: the process environment,
    the shared HTTP client of [utils.httpx_client], and the text Python
    produces for values this development does not render itself. *)
Record Env : Type := {
  environ : string -> option string;
  (** [get_httpx_client()]: [Some e] when building the client raises [e].
      The client is shared by the whole process, so within one environment
      getting it works at every call or fails at every call. *)
  httpx_client_error : option Exn;
  (** [client.post(url, json=..., headers=...)] *)
  post : Request -> PostOutcome;
  (** [str(e)] *)
  str_exn : Exn -> string;
  (** [str(v)] of a list or a dict *)
  py_repr : Json -> string;
  (** [urllib.parse]'s checks of a bracketed or non-ASCII netloc
      ([_check_bracketed_netloc], [_checknetloc]): [Some e] when they raise *)
  netloc_check : string -> option Exn
}.

(** [os.getenv(name, default)] *)
Definition getenv_default (env : Env) (name default : string) : string :=
  match environ env name with
  | Some v => v
  | None => default
  end.

(** [f"{v}"] *)
Definition format_value (env : Env) (v : Json) : string :=
  match v with
  | JNull => "None"
  | JBool true => "True"
  | JBool false => "False"
  | JNum z => NilZero.string_of_int (Z.to_int z)
  | JStr s => s
  | JArr _ | JObj _ => py_repr env v
  end.

(* ================================================================= *)
(** ** [urllib.parse.urlparse]: scheme and netloc

    The part of CPython's [urlsplit] that decides [scheme] and [netloc]:
    leading control characters and spaces are stripped, tabs and newlines
    removed, a leading run of scheme characters before the first colon is the
    scheme, and after [//] the netloc runs up to the first slash, question
    mark or hash.  A netloc with a square bracket that has no partner raises
    [ValueError("Invalid IPv6 URL")]. *)

Definition code (c : ascii) : nat := nat_of_ascii c.

Definition is_c0_or_space (c : ascii) : bool := (code c <=? 32)%nat.

Definition is_unsafe (c : ascii) : bool :=
  ((code c =? 9) || (code c =? 10) || (code c =? 13))%nat.

Definition is_upper (c : ascii) : bool := ((65 <=? code c) && (code c <=? 90))%nat.
Definition is_lower (c : ascii) : bool := ((97 <=? code c) && (code c <=? 122))%nat.
Definition is_digit (c : ascii) : bool := ((48 <=? code c) && (code c <=? 57))%nat.
Definition is_alpha (c : ascii) : bool := is_upper c || is_lower c.

(** [c in scheme_chars] *)
Definition is_scheme_char (c : ascii) : bool :=
  is_alpha c || is_digit c
  || ((code c =? 43) || (code c =? 45) || (code c =? 46))%nat.

Definition lower_ascii (c : ascii) : ascii :=
  if is_upper c then ascii_of_nat (code c + 32) else c.

(** [url.lstrip(_WHATWG_C0_CONTROL_OR_SPACE)] *)
Fixpoint lstrip_c0 (s : string) : string :=
  match s with
  | String c s' => if is_c0_or_space c then lstrip_c0 s' else s
  | EmptyString => EmptyString
  end.

(** removal of tab, CR and LF anywhere in the URL *)
Fixpoint remove_unsafe (s : string) : string :=
  match s with
  | String c s' =>
      if is_unsafe c then remove_unsafe s' else String c (remove_unsafe s')
  | EmptyString => EmptyString
  end.

Fixpoint str_map (f : ascii -> ascii) (s : string) : string :=
  match s with
  | String c s' => String (f c) (str_map f s')
  | EmptyString => EmptyString
  end.

Fixpoint str_forallb (p : ascii -> bool) (s : string) : bool :=
  match s with
  | String c s' => p c && str_forallb p s'
  | EmptyString => true
  end.

Fixpoint str_existsb (p : ascii -> bool) (s : string) : bool :=
  match s with
  | String c s' => p c || str_existsb p s'
  | EmptyString => false
  end.

(** [url[:i], url[i+1:]] for [i = url.find(":")], when there is a colon *)
Fixpoint partition_colon (s : string) : option (string * string) :=
  match s with
  | EmptyString => None
  | String c s' =>
      if (code c =? 58)%nat then Some (EmptyString, s')
      else match partition_colon s' with
           | Some (a, b) => Some (String c a, b)
           | None => None
           end
  end.

(** the scheme, lower-cased, and the rest of the URL *)
Definition split_scheme (url : string) : string * string :=
  match partition_colon url with
  | Some (String c0 rest, after) =>
      if is_alpha c0 && str_forallb is_scheme_char (String c0 rest)
      then (str_map lower_ascii (String c0 rest), after)
      else (EmptyString, url)
  | _ => (EmptyString, url)
  end.

Definition is_netloc_delim (c : ascii) : bool :=
  ((code c =? 47) || (code c =? 63) || (code c =? 35))%nat.

(** [_splitnetloc(url, 2)[0]] once the two slashes are gone: everything up
    to the first of slash, question mark and hash. *)
Fixpoint take_netloc (s : string) : string :=
  match s with
  | String c s' => if is_netloc_delim c then EmptyString else String c (take_netloc s')
  | EmptyString => EmptyString
  end.

Definition has_char (n : nat) (s : string) : bool :=
  str_existsb (fun c => (code c =? n)%nat) s.

Definition is_ascii_str (s : string) : bool :=
  str_forallb (fun c => (code c <? 128)%nat) s.

(** [urlsplit(url)] reduced to [(scheme, netloc)] *)
Definition urlsplit (env : Env) (url : string) : Result (string * string) :=
  let url := remove_unsafe (lstrip_c0 url) in
  let (scheme, url) := split_scheme url in
  match url with
  | String "/" (String "/" rest) =>
      let netloc := take_netloc rest in
      let open := has_char 91 netloc in
      let close := has_char 93 netloc in
      if xorb open close then Raise (ValueError "Invalid IPv6 URL")
      else if (open && close) || negb (is_ascii_str netloc) then
        match netloc_check env netloc with
        | Some e => Raise e
        | None => Ok (scheme, netloc)
        end
      else Ok (scheme, netloc)
  | _ => Ok (scheme, EmptyString)
  end.

(** [urlparse(v)] as [_update_derived_urls] uses it: the texts that
    [f"{parsed.scheme}"] and [f"{parsed.netloc}"] give.  A true value that is
    not a string has no [decode]; a false one is taken for an empty byte
    string, and the parts come back as bytes. *)
Definition urlparse (env : Env) (v : Json) : Result (string * string) :=
  match v with
  | JStr s => urlsplit env s
  | _ =>
      if truthy v then Raise (AttributeError (py_type_name v) "decode")
      else Ok ("b''", "b''")
  end.

(* ================================================================= *)
(** ** State and the monad *)

(** The mutable class attributes of [URLConfig].  The two derived
    attributes do not exist until [_update_derived_urls] has run once. *)
Record URLConfig : Type := {
  BASE_URL : Json;
  MARKET_DATA_URL : option string;
  INTERACTIVE_URL : option string
}.

Definition HOST_LOOKUP_URL : string :=
  "http://xtstradingnse.aryafingroup.in:3000/hostlookup".

Record State : Type := {
  config : URLConfig;
  sent : list Request   (* POST requests issued so far, oldest first *)
}.

Definition M (A : Type) : Type := State -> Result A * State.

Definition ret {A} (a : A) : M A := fun s => (Ok a, s).

Definition raise {A} (e : Exn) : M A := fun s => (Raise e, s).

Definition bind {A B} (m : M A) (k : A -> M B) : M B :=
  fun s =>
    match m s with
    | (Ok a, s') => k a s'
    | (Raise e, s') => (Raise e, s')
    end.

Notation "x <- m ;; k" := (bind m (fun x => k))
  (at level 61, m at next level, right associativity).
Notation "' pat <- m ;; k" := (bind m (fun x => match x with pat => k end))
  (at level 61, pat pattern, m at next level, right associativity).

(** [try: m except Exception as e: handler(e)] *)
Definition try_except {A} (m : M A) (handler : Exn -> M A) : M A :=
  fun s =>
    match m s with
    | (Ok a, s') => (Ok a, s')
    | (Raise e, s') => handler e s'
    end.

Definition lift {A} (r : Result A) : M A :=
  match r with
  | Ok a => ret a
  | Raise e => raise e
  end.

Definition get_config : M URLConfig := fun s => (Ok (config s), s).

Definition set_config (c : URLConfig) : M unit :=
  fun s => (Ok tt, {| config := c; sent := sent s |}).

(** [get_httpx_client()] *)
Definition get_httpx_client (env : Env) : M unit :=
  match httpx_client_error env with
  | Some e => raise e
  | None => ret tt
  end.

(** [client.post(url, json=payload, headers=headers)]: the request goes out,
    then the client returns a response or raises. *)
Definition client_post (env : Env) (url : string) (payload : Json)
    (headers : list (string * string)) : M Response :=
  fun s =>
    let rq := {| req_url := url; req_json := payload; req_headers := headers |} in
    let s' := {| config := config s; sent := sent s ++ [rq] |} in
    match post env rq with
    | PostRaises e => (Raise e, s')
    | PostReturns r => (Ok r, s')
    end.

(* ================================================================= *)
(** ** baseurl.py *)

Module URLConfigM.

(** [URLConfig._update_derived_urls] *)
Definition _update_derived_urls (env : Env) : M unit :=
  cfg <- get_config ;;
  ' (scheme, netloc) <- lift (urlparse env (BASE_URL cfg)) ;;
  let base_domain := scheme ++ "://" ++ netloc in
  set_config {| BASE_URL := BASE_URL cfg;
                MARKET_DATA_URL := Some (base_domain ++ "/apimarketdata");
                INTERACTIVE_URL := Some (format_value env (BASE_URL cfg)) |}.

(** [URLConfig.update_base_url] *)
Definition update_base_url (env : Env) (new_base_url : Json) : M unit :=
  cfg <- get_config ;;
  _ <- set_config {| BASE_URL := new_base_url;
                     MARKET_DATA_URL := MARKET_DATA_URL cfg;
                     INTERACTIVE_URL := INTERACTIVE_URL cfg |} ;;
  _update_derived_urls env.

(** The class body, before the module's last line has run. *)
Definition class_body : URLConfig :=
  {| BASE_URL := JStr "http://xtstradingnse.aryafingroup.in:3000";
     MARKET_DATA_URL := None;
     INTERACTIVE_URL := None |}.

(** Reading [URLConfig.MARKET_DATA_URL] *)
Definition read_MARKET_DATA_URL : M string :=
  cfg <- get_config ;;
  match MARKET_DATA_URL cfg with
  | Some u => ret u
  | None => raise (AttributeError "type" "MARKET_DATA_URL")
  end.

End URLConfigM.
Import URLConfigM.

(** Importing [baseurl]: the class body, then the call on its last line. *)
Definition import_baseurl (env : Env) : Result unit * State :=
  _update_derived_urls env {| config := class_body; sent := [] |}.

(* ================================================================= *)
(** ** api/auth_api.py *)

(** How the body of a [try] ends when it does not raise: by a [return], or
    by running off its end. *)
Inductive Flow (A : Type) : Type :=
| Returned (a : A)
| FellThrough.
Arguments Returned {A} a.
Arguments FellThrough {A}.

Definition LookupTuple : Type := Json * Json * option string.
Definition FeedTuple : Type := Json * Json * option string.
Definition AuthTuple : Type := Json * Json * Json * option string.

Definition json_headers : list (string * string) :=
  [("Content-Type", "application/json")].

Definition hostlookup_params (env : Env) : Json :=
  JObj [("accesspassword",
           JStr (getenv_default env "HOSTLOOKUP_ACCESS_PASSWORD" "2021HostLookUpAccess"));
        ("version",
           JStr (getenv_default env "HOSTLOOKUP_VERSION" "interactive_1.0.1"))].

Definition hostlookup_request (env : Env) : Request :=
  {| req_url := HOST_LOOKUP_URL;
     req_json := hostlookup_params env;
     req_headers := [] |}.

(** The [try] block of [hostlookup_login]. *)
Definition hostlookup_try (env : Env) : M (Flow LookupTuple) :=
  _ <- get_config ;;
  _ <- get_httpx_client env ;;
  response <- client_post env HOST_LOOKUP_URL (hostlookup_params env) [] ;;
  if (status_code response =? 200)%Z then
    body <- lift (json response) ;;
    result <- lift (py_get body "result") ;;
    (* both [get]s have the same receiver: evaluating the second one
       before the test of the first changes nothing *)
    connectionString <- lift (py_get result "connectionString") ;;
    uniqueKey <- lift (py_get result "uniqueKey") ;;
    if truthy connectionString && truthy uniqueKey then
      ret (Returned (connectionString, uniqueKey, None))
    else
      ret (Returned (JNull, JNull,
                     Some "Error during hostlookup: Incomplete response data."))
  else ret FellThrough.

Definition hostlookup_login (env : Env) : M LookupTuple :=
  flow <- try_except (hostlookup_try env)
            (fun e => ret (Returned (JNull, JNull,
                             Some ("Error during hostlookup: " ++ str_exn env e)))) ;;
  match flow with
  | Returned t => ret t
  | FellThrough =>
      ret (JNull, JNull,
           Some "Error during hostlookup: Unknown error or unexpected response.")
  end.

Definition feed_payload (env : Env) : Json :=
  JObj [("secretKey", json_of_option (environ env "BROKER_API_SECRET_MARKET"));
        ("appKey", json_of_option (environ env "BROKER_API_KEY_MARKET"));
        ("source", JStr "WebAPI")].

(** The [try] block of [get_feed_token]. *)
Definition get_feed_token_try (env : Env) : M FeedTuple :=
  market_data_url <- read_MARKET_DATA_URL ;;
  let feed_url := market_data_url ++ "/auth/login" in
  _ <- get_httpx_client env ;;
  feed_response <- client_post env feed_url (feed_payload env) json_headers ;;
  if (status_code feed_response =? 200)%Z then
    feed_result <- lift (json feed_response) ;;
    type <- lift (py_get feed_result "type") ;;
    if py_eq_str type "success" then
      result <- lift (py_getitem feed_result "result") ;;
      feed_token <- lift (py_get result "token") ;;
      user_id <- lift (py_get result "userID") ;;
      ret (feed_token, user_id, None)
    else
      ret (JNull, JNull,
           Some "Feed token request failed. Please check the response.")
  else
    feed_error_detail <- lift (json feed_response) ;;
    feed_error_message <-
      lift (py_get_default feed_error_detail "description"
              (JStr "Feed token request failed. Please try again.")) ;;
    ret (JNull, JNull,
         Some ("API Error (Feed): " ++ format_value env feed_error_message)).

Definition get_feed_token (env : Env) : M FeedTuple :=
  try_except (get_feed_token_try env)
    (fun e => ret (JNull, JNull, Some ("An exception occurred: " ++ str_exn env e))).

Definition session_payload (env : Env) (unique_key : Json) : Json :=
  JObj [("appKey", json_of_option (environ env "BROKER_API_KEY"));
        ("secretKey", json_of_option (environ env "BROKER_API_SECRET"));
        ("source", JStr "WebAPI");
        ("uniqueKey", unique_key)].

Definition session_url (env : Env) (connectionString : Json) : string :=
  format_value env connectionString ++ "/user/session".

Definition session_request (env : Env) (connectionString unique_key : Json) : Request :=
  {| req_url := session_url env connectionString;
     req_json := session_payload env unique_key;
     req_headers := json_headers |}.

(** [if feed_error:] *)
Definition truthy_error (o : option string) : bool :=
  match o with
  | Some s => negb (s =? "")
  | None => false
  end.

(** The [try] block of [authenticate_broker]. *)
Definition authenticate_broker_try (env : Env) (request_token : Json) : M AuthTuple :=
  _ <- get_httpx_client env ;;
  ' (connectionString, unique_key, hostlookup_error) <- hostlookup_login env ;;
  match hostlookup_error with
  | Some err => ret (JNull, JNull, JNull, Some err)
  | None =>
      response <- client_post env (session_url env connectionString)
                    (session_payload env unique_key) json_headers ;;
      if (status_code response =? 200)%Z then
        result <- lift (json response) ;;
        _ <- update_base_url env connectionString ;;
        type <- lift (py_get result "type") ;;
        if py_eq_str type "success" then
          inner <- lift (py_getitem result "result") ;;
          token <- lift (py_getitem inner "token") ;;
          ' (feed_token, user_id, feed_error) <- get_feed_token env ;;
          if truthy_error feed_error then
            ret (token, JNull, JNull,
                 Some ("Feed token error: "
                       ++ match feed_error with Some e => e | None => "" end))
          else
            ret (token, feed_token, user_id, None)
        else
          ret (JNull, JNull, JNull,
               Some "Authentication succeeded but no access token was returned. Please check the response.")
      else
        error_detail <- lift (json response) ;;
        error_message <-
          lift (py_get_default error_detail "message"
                  (JStr "Authentication failed. Please try again.")) ;;
        ret (JNull, JNull, JNull,
             Some ("API error: " ++ format_value env error_message))
  end.

Definition authenticate_broker (env : Env) (request_token : Json) : M AuthTuple :=
  try_except (authenticate_broker_try env request_token)
    (fun e => ret (JNull, JNull, JNull,
                   Some ("Error during authentication: " ++ str_exn env e))).


(* ================================================================= *)
(** ** Vocabulary of the statements *)

(** The derived attributes are those computed from the current
    [BASE_URL]. *)
Definition derived_consistent (env : Env) (c : URLConfig) : Prop :=
  exists scheme netloc,
    urlparse env (BASE_URL c) = Ok (scheme, netloc)
    /\ MARKET_DATA_URL c = Some (scheme ++ "://" ++ netloc ++ "/apimarketdata")
    /\ INTERACTIVE_URL c = Some (format_value env (BASE_URL c)).

(** The requests a call of [hostlookup_login] adds to the log. *)
Definition lookup_sent (env : Env) : list Request :=
  match httpx_client_error env with
  | Some _ => []
  | None => [hostlookup_request env]
  end.

(** A result tuple of [hostlookup_login] or [get_feed_token]: with an
    error, both values are [None]. *)
Definition failure_is_null (t : Json * Json * option string) : Prop :=
  match t with
  | (a, b, Some _) => a = JNull /\ b = JNull
  | (_, _, None) => True
  end.

Definition feed_request (env : Env) (market_data_url : string) : Request :=
  {| req_url := market_data_url ++ "/auth/login";
     req_json := feed_payload env;
     req_headers := json_headers |}.

(** The requests a call of [get_feed_token] adds to the log. *)
Definition feed_sent (env : Env) (c : URLConfig) : list Request :=
  match MARKET_DATA_URL c, httpx_client_error env with
  | Some m, None => [feed_request env m]
  | _, _ => []
  end.

(** URLs of the plain form [scheme://authority] followed by nothing or by
    a path, query or fragment: a lower-case scheme, an ASCII authority
    without brackets, and no tab or newline anywhere. *)
Definition is_lower_scheme (s : string) : bool :=
  match s with
  | String c _ =>
      is_alpha c && str_forallb (fun c => is_scheme_char c && negb (is_upper c)) s
  | EmptyString => false
  end.

Definition is_authority_char (c : ascii) : bool :=
  negb (is_netloc_delim c) && negb (is_unsafe c) && (code c <? 128)%nat
  && negb (code c =? 91)%nat && negb (code c =? 93)%nat.

Definition is_plain_authority (s : string) : bool :=
  str_forallb is_authority_char s.

Definition is_path_part (s : string) : bool :=
  match s with
  | EmptyString => true
  | String c _ => is_netloc_delim c && str_forallb (fun c => negb (is_unsafe c)) s
  end.

(** [update_base_url(newBase)] returns and leaves the three attributes set
    from [newBase], the market-data URL being some origin followed by
    [/apimarketdata]. *)
Definition update_sets_all (env : Env) (newBase : string) (st : State) : Prop :=
  exists origin,
    update_base_url env (JStr newBase) st =
      (Ok tt,
       {| config := {| BASE_URL := JStr newBase;
                       MARKET_DATA_URL := Some (origin ++ "/apimarketdata");
                       INTERACTIVE_URL := Some newBase |};
          sent := sent st |}).

(** [result.<k>] of a decoded lookup response, when the body is an object
    with an object under [result] that has the key. *)
Definition result_field (r : Response) (k : string) : option Json :=
  match json r with
  | Ok (JObj body) =>
      match assoc "result" body with
      | Some (JObj result) => assoc k result
      | _ => None
      end
  | _ => None
  end.

(** A result tuple of [authenticate_broker] in which an error comes with
    three [None] values. *)
Definition auth_failure_is_null (t : AuthTuple) : Prop :=
  match t with
  | (token, feed_token, user_id, Some _) =>
      token = JNull /\ feed_token = JNull /\ user_id = JNull
  | (_, _, _, None) => True
  end.

(** [d.get(k)] on the fields of a dict *)
Definition field_or_null (k : string) (fields : list (string * Json)) : Json :=
  match assoc k fields with
  | Some v => v
  | None => JNull
  end.

(** The requests one call of [authenticate_broker] can add to the log: an
    initial part of lookup, session login, feed login. *)
Definition chain_prefix (env : Env) (l : list Request) : Prop :=
  l = []
  \/ l = [hostlookup_request env]
  \/ (exists cs uk, l = [hostlookup_request env; session_request env cs uk])
  \/ (exists cs uk m,
        l = [hostlookup_request env; session_request env cs uk;
             feed_request env m]).

(* ================================================================= *)
(** ** Sample environments

    Concrete runs, used to evaluate the definitions above. *)

Module Samples.

Definition sample_str_exn (e : Exn) : string :=
  match e with
  | AttributeError t a => "'" ++ t ++ "' object has no attribute '" ++ a ++ "'"
  | KeyError k => "'" ++ k ++ "'"
  | TypeError t _ => "'" ++ t ++ "' object is not subscriptable"
  | ValueError m => m
  | TransportError d => d
  | DecodeError d => d
  end.

Fixpoint route (routes : list (string * PostOutcome)) (url : string) : PostOutcome :=
  match routes with
  | [] => PostRaises (TransportError "connection refused")
  | (u, o) :: rest => if url =? u then o else route rest url
  end.

(** An environment with no variables set, a working client, and a server
    that answers by URL. *)
Definition server (routes : list (string * PostOutcome)) : Env :=
  {| environ := fun _ => None;
     httpx_client_error := None;
     post := fun rq => route routes (req_url rq);
     str_exn := sample_str_exn;
     py_repr := fun _ => "<object>";
     netloc_check := fun _ => None |}.

Definition reply (status : Z) (body : Json) : PostOutcome :=
  PostReturns {| status_code := status; json := Ok body |}.

Definition host : string := "http://host:3000/2hostlookup".

Definition lookup_ok : string * PostOutcome :=
  (HOST_LOOKUP_URL,
   reply 200 (JObj [("type", JBool true);
                    ("description", JStr "Hostlookup successful");
                    ("result", JObj [("uniqueKey", JStr "K0j");
                                     ("connectionString", JStr host);
                                     ("timeStamp", JNum 0);
                                     ("remarks", JStr "")])])).

Definition session_ok_body : list (string * Json) :=
  [("type", JStr "success"); ("result", JObj [("token", JStr "TRADE")])].

Definition session_ok : string * PostOutcome :=
  ("http://host:3000/2hostlookup/user/session", reply 200 (JObj session_ok_body)).

Definition session_denied : string * PostOutcome :=
  ("http://host:3000/2hostlookup/user/session",
   reply 401 (JObj [("message", JStr "Invalid credentials")])).

Definition feed_ok : string * PostOutcome :=
  ("http://host:3000/apimarketdata/auth/login",
   reply 200 (JObj [("type", JStr "success");
                    ("result", JObj [("token", JStr "FEED");
                                     ("userID", JStr "U1")])])).

Definition feed_down : string * PostOutcome :=
  ("http://host:3000/apimarketdata/auth/login",
   reply 500 (JObj [("description", JStr "Service unavailable")])).

Definition feed_no_token : string * PostOutcome :=
  ("http://host:3000/apimarketdata/auth/login",
   reply 200 (JObj [("type", JStr "success");
                    ("result", JObj [("userID", JStr "U1")])])).

(** the registry as [import baseurl] leaves it, nothing sent yet *)
Definition fresh : State :=
  {| config := {| BASE_URL := JStr "http://xtstradingnse.aryafingroup.in:3000";
                  MARKET_DATA_URL :=
                    Some "http://xtstradingnse.aryafingroup.in:3000/apimarketdata";
                  INTERACTIVE_URL :=
                    Some "http://xtstradingnse.aryafingroup.in:3000" |};
     sent := [] |}.

(** the registry after a login against [host] *)
Definition rebased : State :=
  {| config := {| BASE_URL := JStr host;
                  MARKET_DATA_URL := Some "http://host:3000/apimarketdata";
                  INTERACTIVE_URL := Some host |};
     sent := [] |}.

End Samples.

(* ================================================================= *)
(** ** Properties of the URL registry *)

Section Registry.

Variable env : Env.

Lemma append_assoc (a b c : string) : (a ++ b) ++ c = a ++ (b ++ c).
Proof. induction a as [|x a IH]; simpl; [reflexivity | now rewrite IH]. Qed.

Lemma take_netloc_no_delim (s : string) :
  str_existsb is_netloc_delim (take_netloc s) = false.
Proof.
  induction s as [|c s IH]; simpl; [reflexivity|].
  destruct (is_netloc_delim c) eqn:E; simpl; [reflexivity|].
  now rewrite E, IH.
Qed.

(** The netloc that [urlsplit] returns stops before the path, the query
    and the fragment. *)
Lemma urlsplit_netloc_no_delim (url scheme netloc : string) :
  urlsplit env url = Ok (scheme, netloc) ->
  str_existsb is_netloc_delim netloc = false.
Proof.
  unfold urlsplit.
  destruct (split_scheme (remove_unsafe (lstrip_c0 url))) as [sch rest].
  assert (E0 : forall r : Result (string * string),
             r = Ok (sch, EmptyString) -> r = Ok (scheme, netloc) ->
             str_existsb is_netloc_delim netloc = false).
  { intros r -> H. inversion H. reflexivity. }
  destruct rest as [|a rest]; [now apply E0|].
  destruct (ascii_dec a "/") as [->|Ha].
  2:{ intros H. eapply E0; [|exact H].
      destruct a as [[] [] [] [] [] [] [] []]; try reflexivity. now elim Ha. }
  destruct rest as [|b rest]; [now apply E0|].
  destruct (ascii_dec b "/") as [->|Hb].
  2:{ intros H. eapply E0; [|exact H].
      destruct b as [[] [] [] [] [] [] [] []]; try reflexivity. now elim Hb. }
  intros H.
  assert (netloc = take_netloc rest) as ->.
  { destruct (xorb _ _); [discriminate|].
    destruct (_ || _).
    - destruct (netloc_check env _); [discriminate|]. now inversion H.
    - now inversion H. }
  apply take_netloc_no_delim.
Qed.

Lemma str_forallb_app (p : ascii -> bool) (a b : string) :
  str_forallb p (a ++ b) = str_forallb p a && str_forallb p b.
Proof.
  induction a as [|c a IH]; simpl; [reflexivity|].
  now rewrite IH, andb_assoc.
Qed.

Lemma str_forallb_impl (p q : ascii -> bool) (s : string) :
  (forall c, p c = true -> q c = true) ->
  str_forallb p s = true -> str_forallb q s = true.
Proof.
  intros Hpq. induction s as [|c s IH]; simpl; [reflexivity|].
  intros H. apply andb_true_iff in H as [Hc Hs].
  now rewrite (Hpq c Hc), (IH Hs).
Qed.

Lemma remove_unsafe_id (s : string) :
  str_forallb (fun c => negb (is_unsafe c)) s = true -> remove_unsafe s = s.
Proof.
  induction s as [|c s IH]; simpl; [reflexivity|].
  intros H. apply andb_true_iff in H as [Hc Hs].
  apply negb_true_iff in Hc. now rewrite Hc, (IH Hs).
Qed.

Lemma partition_colon_app (a b : string) :
  str_forallb (fun c => negb (code c =? 58)%nat) a = true ->
  partition_colon (a ++ String ":" b) = Some (a, b).
Proof.
  induction a as [|c a IH]; simpl; [reflexivity|].
  intros H. apply andb_true_iff in H as [Hc Ha].
  apply negb_true_iff in Hc. now rewrite Hc, (IH Ha).
Qed.

Lemma str_map_lower_id (s : string) :
  str_forallb (fun c => negb (is_upper c)) s = true -> str_map lower_ascii s = s.
Proof.
  induction s as [|c s IH]; simpl; [reflexivity|].
  intros H. apply andb_true_iff in H as [Hc Hs].
  apply negb_true_iff in Hc. rewrite (IH Hs). unfold lower_ascii. now rewrite Hc.
Qed.

Lemma take_netloc_app (a p : string) :
  str_forallb (fun c => negb (is_netloc_delim c)) a = true ->
  is_path_part p = true ->
  take_netloc (a ++ p) = a.
Proof.
  intros Ha Hp. induction a as [|c a IH]; simpl.
  - destruct p as [|d p]; [reflexivity|]. simpl in *.
    apply andb_true_iff in Hp as [Hd _]. now rewrite Hd.
  - simpl in Ha. apply andb_true_iff in Ha as [Hc Ha].
    apply negb_true_iff in Hc. now rewrite Hc, (IH Ha).
Qed.

Lemma str_existsb_false (p : ascii -> bool) (s : string) :
  str_forallb (fun c => negb (p c)) s = true -> str_existsb p s = false.
Proof.
  induction s as [|c s IH]; simpl; [reflexivity|].
  intros H. apply andb_true_iff in H as [Hc Hs].
  apply negb_true_iff in Hc. now rewrite Hc, (IH Hs).
Qed.

Lemma scheme_char_plain (c : ascii) :
  is_scheme_char c = true ->
  is_unsafe c = false /\ (code c =? 58)%nat = false /\ is_c0_or_space c = false.
Proof.
  destruct c as [[] [] [] [] [] [] [] []]; cbv; intros H;
    try discriminate H; repeat split.
Qed.

(** On a URL of the plain form, [urlsplit] finds the scheme and the
    authority as written. *)
Lemma urlsplit_plain (scheme authority path : string) :
  is_lower_scheme scheme = true ->
  is_plain_authority authority = true ->
  is_path_part path = true ->
  urlsplit env (scheme ++ "://" ++ authority ++ path) = Ok (scheme, authority).
Proof.
  intros Hs Ha Hp.
  destruct scheme as [|c0 sch]; [discriminate|].
  unfold is_lower_scheme in Hs. apply andb_true_iff in Hs as [Hc0 Hs].
  assert (Hsc : str_forallb is_scheme_char (String c0 sch) = true).
  { revert Hs. apply str_forallb_impl. intros c H.
    now apply andb_true_iff in H as [H _]. }
  assert (Hlow : str_forallb (fun c => negb (is_upper c)) (String c0 sch) = true).
  { revert Hs. apply str_forallb_impl. intros c H.
    now apply andb_true_iff in H as [_ H]. }
  assert (Hsafe : str_forallb (fun c => negb (is_unsafe c)) (String c0 sch) = true).
  { revert Hsc. apply str_forallb_impl. intros c H.
    destruct (scheme_char_plain c H) as (E & _). now rewrite E. }
  assert (Hcol : str_forallb (fun c => negb (code c =? 58)%nat) (String c0 sch) = true).
  { revert Hsc. apply str_forallb_impl. intros c H.
    destruct (scheme_char_plain c H) as (_ & E & _). now rewrite E. }
  assert (Hasafe : str_forallb (fun c => negb (is_unsafe c)) authority = true).
  { revert Ha. apply str_forallb_impl. intros c H. unfold is_authority_char in H.
    repeat (apply andb_true_iff in H as [H ?]). assumption. }
  assert (Hpsafe : str_forallb (fun c => negb (is_unsafe c)) path = true).
  { destruct path as [|d path]; [reflexivity|].
    unfold is_path_part in Hp. now apply andb_true_iff in Hp as [_ Hp]. }
  assert (Hnd : str_forallb (fun c => negb (is_netloc_delim c)) authority = true).
  { revert Ha. apply str_forallb_impl. intros c H. unfold is_authority_char in H.
    repeat (apply andb_true_iff in H as [H ?]). assumption. }
  assert (Hopen : has_char 91 authority = false).
  { apply str_existsb_false. revert Ha. apply str_forallb_impl.
    intros c H. unfold is_authority_char in H.
    repeat (apply andb_true_iff in H as [H ?]). assumption. }
  assert (Hclose : has_char 93 authority = false).
  { apply str_existsb_false. revert Ha. apply str_forallb_impl.
    intros c H. unfold is_authority_char in H.
    repeat (apply andb_true_iff in H as [H ?]). assumption. }
  assert (Hascii : is_ascii_str authority = true).
  { revert Ha. apply str_forallb_impl. intros c H. unfold is_authority_char in H.
    repeat (apply andb_true_iff in H as [H ?]). assumption. }
  unfold urlsplit.
  assert (E1 : lstrip_c0 (String c0 sch ++ "://" ++ authority ++ path) =
               String c0 sch ++ "://" ++ authority ++ path).
  { simpl in Hsc. apply andb_true_iff in Hsc as [Hc _].
    destruct (scheme_char_plain c0 Hc) as (_ & _ & E). simpl. now rewrite E. }
  rewrite E1.
  rewrite remove_unsafe_id.
  2:{ rewrite !str_forallb_app, Hsafe, Hasafe, Hpsafe. reflexivity. }
  unfold split_scheme.
  change (String c0 sch ++ "://" ++ authority ++ path)
    with (String c0 sch ++ String ":" ("//" ++ authority ++ path)).
  rewrite (partition_colon_app _ _ Hcol).
  rewrite Hc0, Hsc, (str_map_lower_id _ Hlow).
  cbn [andb append].
  rewrite (take_netloc_app _ _ Hnd Hp), Hopen, Hclose, Hascii.
  reflexivity.
Qed.

(** What [_update_derived_urls] does when the URL parses. *)
Lemma _update_derived_urls_ok (st : State) (scheme netloc : string) :
  urlparse env (BASE_URL (config st)) = Ok (scheme, netloc) ->
  _update_derived_urls env st =
    (Ok tt,
     {| config := {| BASE_URL := BASE_URL (config st);
                     MARKET_DATA_URL :=
                       Some (scheme ++ "://" ++ netloc ++ "/apimarketdata");
                     INTERACTIVE_URL :=
                       Some (format_value env (BASE_URL (config st))) |};
        sent := sent st |}).
Proof.
  intros H. unfold _update_derived_urls, bind, get_config, set_config, lift.
  cbn. rewrite H. cbn. now rewrite !append_assoc.
Qed.

(** ... and when it does not: the exception leaves, nothing is written. *)
Lemma _update_derived_urls_raise (st : State) (e : Exn) :
  urlparse env (BASE_URL (config st)) = Raise e ->
  _update_derived_urls env st = (Raise e, st).
Proof.
  intros H. unfold _update_derived_urls, bind, get_config, lift.
  cbn. now rewrite H.
Qed.

Lemma update_base_url_ok (st : State) (v : Json) (scheme netloc : string) :
  urlparse env v = Ok (scheme, netloc) ->
  update_base_url env v st =
    (Ok tt,
     {| config := {| BASE_URL := v;
                     MARKET_DATA_URL :=
                       Some (scheme ++ "://" ++ netloc ++ "/apimarketdata");
                     INTERACTIVE_URL := Some (format_value env v) |};
        sent := sent st |}).
Proof.
  intros H.
  change (update_base_url env v st) with
    (_update_derived_urls env
       {| config := {| BASE_URL := v;
                       MARKET_DATA_URL := MARKET_DATA_URL (config st);
                       INTERACTIVE_URL := INTERACTIVE_URL (config st) |};
          sent := sent st |}).
  now rewrite (_update_derived_urls_ok _ scheme netloc).
Qed.

Lemma update_base_url_raise (st : State) (v : Json) (e : Exn) :
  urlparse env v = Raise e ->
  update_base_url env v st =
    (Raise e,
     {| config := {| BASE_URL := v;
                     MARKET_DATA_URL := MARKET_DATA_URL (config st);
                     INTERACTIVE_URL := INTERACTIVE_URL (config st) |};
        sent := sent st |}).
Proof.
  intros H.
  change (update_base_url env v st) with
    (_update_derived_urls env
       {| config := {| BASE_URL := v;
                       MARKET_DATA_URL := MARKET_DATA_URL (config st);
                       INTERACTIVE_URL := INTERACTIVE_URL (config st) |};
          sent := sent st |}).
  now rewrite (_update_derived_urls_raise _ e).
Qed.

(** Whatever happens, [update_base_url] has stored its argument and has
    sent nothing. *)
Lemma update_base_url_base (st : State) (v : Json) :
  BASE_URL (config (snd (update_base_url env v st))) = v
  /\ sent (snd (update_base_url env v st)) = sent st.
Proof.
  destruct (urlparse env v) as [[sch nl]|e] eqn:E.
  - now rewrite (update_base_url_ok _ _ sch nl).
  - now rewrite (update_base_url_raise _ _ e).
Qed.

Lemma update_base_url_inv (st st' : State) (v : Json) (r : Result unit) :
  update_base_url env v st = (r, st') ->
  (r = Ok tt -> derived_consistent env (config st')).
Proof.
  intros H Hr. subst r.
  destruct (urlparse env v) as [[sch nl]|e] eqn:E.
  - rewrite (update_base_url_ok _ _ sch nl E) in H. inversion H; subst; clear H.
    exists sch, nl. cbn. rewrite E. auto.
  - rewrite (update_base_url_raise _ _ e E) in H. discriminate.
Qed.

Lemma update_base_url_Ok_inv (st st' : State) (v : Json) (u : unit) :
  update_base_url env v st = (Ok u, st') ->
  exists scheme netloc,
    urlparse env v = Ok (scheme, netloc)
    /\ st' = {| config := {| BASE_URL := v;
                             MARKET_DATA_URL :=
                               Some (scheme ++ "://" ++ netloc ++ "/apimarketdata");
                             INTERACTIVE_URL := Some (format_value env v) |};
                sent := sent st |}.
Proof.
  intros H.
  destruct (urlparse env v) as [[sch nl]|e] eqn:E.
  - rewrite (update_base_url_ok _ _ sch nl E) in H. inversion H.
    now exists sch, nl.
  - rewrite (update_base_url_raise _ _ e E) in H. discriminate.
Qed.

Lemma import_baseurl_eq :
  import_baseurl env = (Ok tt, Samples.fresh).
Proof.
  unfold import_baseurl.
  rewrite (_update_derived_urls_ok _ "http" "xtstradingnse.aryafingroup.in:3000");
    reflexivity.
Qed.

End Registry.

(* ================================================================= *)
(** ** Properties of the request chain *)

Arguments urlparse : simpl never.
Arguments update_base_url : simpl never.
Arguments hostlookup_login : simpl never.
Arguments get_feed_token : simpl never.
Arguments format_value : simpl never.

(** Unfolding the monad, and splitting on whatever a run scrutinises. *)
Ltac unfold_run :=
  unfold try_except, bind, lift, ret, raise, get_config, get_httpx_client,
    client_post, read_MARKET_DATA_URL in *.

(** one case split on a scrutinee that contains no other case analysis *)
Ltac split_atom :=
  match goal with
  | |- context [match ?x with _ => _ end] =>
      lazymatch x with
      | context [match _ with _ => _ end] => fail
      | _ => destruct x eqn:?
      end
  end.

Ltac split_run := repeat (unfold_run; cbn; split_atom); unfold_run; cbn.

Section Chain.

Variable env : Env.

Lemma hostlookup_login_returns (st : State) :
  exists t,
    hostlookup_login env st =
      (Ok t, {| config := config st; sent := sent st ++ lookup_sent env |})
    /\ failure_is_null t
    /\ (forall cs uk, t = (cs, uk, None) -> truthy cs = true /\ truthy uk = true).
Proof.
  unfold hostlookup_login, hostlookup_try, lookup_sent, hostlookup_request.
  destruct st as [cfg log].
  split_run; rewrite ?app_nil_r;
    (eexists; split; [reflexivity|]; split; [cbn; auto|]);
    intros x y E; inversion E; subst.
  now apply andb_true_iff.
Qed.

Lemma get_feed_token_returns (st : State) :
  exists t,
    get_feed_token env st =
      (Ok t, {| config := config st; sent := sent st ++ feed_sent env (config st) |})
    /\ failure_is_null t
    /\ (forall a b e, t = (a, b, Some e) -> e <> "").
Proof.
  unfold get_feed_token, get_feed_token_try, feed_sent, feed_request.
  destruct st as [cfg log].
  split_run; rewrite ?app_nil_r;
    (eexists; split; [reflexivity|]; split; [cbn; auto|]);
    intros x y msg E; inversion E; subst; discriminate.
Qed.

(** Every run of [authenticate_broker] returns a tuple.  With an error, the
    feed token and the user id are [None], and so is the session token
    unless the error is the one of the feed login.  A session token is only
    returned after the three requests went out, in order. *)
Lemma authenticate_broker_returns (request_token : Json) (st : State) :
  exists token feed_token user_id err st',
    authenticate_broker env request_token st =
      (Ok (token, feed_token, user_id, err), st')
    /\ (err <> None ->
        feed_token = JNull /\ user_id = JNull
        /\ (token = JNull \/ exists e, err = Some ("Feed token error: " ++ e)))
    /\ (token <> JNull ->
        exists cs uk m r,
          post env (session_request env cs uk) = PostReturns r
          /\ status_code r = 200%Z
          /\ sent st' = (sent st ++
                [hostlookup_request env; session_request env cs uk;
                 feed_request env m])%list).
Proof.
  unfold authenticate_broker, authenticate_broker_try.
  destruct st as [cfg log].
  split_run.
  all: repeat match goal with
         | H : hostlookup_login env ?s = _ |- _ =>
             let t := fresh "t" in
             let Ht := fresh "Ht" in
             destruct (hostlookup_login_returns s) as (t & Ht & ? & ?);
             rewrite H in Ht; inversion Ht; subst; clear Ht H
         | H : get_feed_token env ?s = _ |- _ =>
             let t := fresh "t" in
             let Ht := fresh "Ht" in
             destruct (get_feed_token_returns s) as (t & Ht & ? & ?);
             rewrite H in Ht; inversion Ht; subst; clear Ht H
         | H : update_base_url env ?v ?s = (Ok _, _) |- _ =>
             let sch := fresh "sch" in
             let nl := fresh "nl" in
             let E := fresh "E" in
             destruct (update_base_url_Ok_inv env _ _ _ _ H) as (sch & nl & E & ->);
             clear H
         end.
  all: do 5 eexists; (split; [reflexivity|]).
  all: split;
    [ intros Herr; try (now elim Herr);
      repeat split; try reflexivity; try (now left); try (right; eexists; reflexivity)
    | intros Htok; try (now elim Htok) ].
  all: unfold feed_sent, lookup_sent; cbn; rewrite Heqo;
    exists j, j0; do 2 eexists;
    (split; [eassumption|]); (split; [now apply Z.eqb_eq|]);
    rewrite <- !app_assoc; reflexivity.
Qed.

End Chain.

(* ================================================================= *)
(** ** The URL registry: statements *)

(** C3, as stated, fails: a base URL whose netloc has an unmatched bracket
    makes [urlparse] raise after [BASE_URL] is assigned, so the call does not
    return and the derived URLs keep their old values. *)
Lemma update_base_url_unmatched_bracket :
  update_base_url (Samples.server []) (JStr "http://[") Samples.fresh =
    (Raise (ValueError "Invalid IPv6 URL"),
     {| config := {| BASE_URL := JStr "http://[";
                     MARKET_DATA_URL :=
                       Some "http://xtstradingnse.aryafingroup.in:3000/apimarketdata";
                     INTERACTIVE_URL :=
                       Some "http://xtstradingnse.aryafingroup.in:3000" |};
        sent := [] |})
  /\ ~ update_sets_all (Samples.server []) "http://[" Samples.fresh.
Proof.
  assert (E : update_base_url (Samples.server []) (JStr "http://[") Samples.fresh =
              (Raise (ValueError "Invalid IPv6 URL"),
               {| config := {| BASE_URL := JStr "http://[";
                               MARKET_DATA_URL :=
                                 Some "http://xtstradingnse.aryafingroup.in:3000/apimarketdata";
                               INTERACTIVE_URL :=
                                 Some "http://xtstradingnse.aryafingroup.in:3000" |};
                  sent := [] |})) by reflexivity.
  split; [exact E|].
  intros [origin H]. rewrite E in H. discriminate.
Qed.

(** C3 (amended): for every string [newBase] that [urlparse] accepts,
    [update_base_url] returns with [BASE_URL = newBase], the market-data URL
    equal to [scheme://netloc/apimarketdata] for the scheme and netloc that
    [urlparse] finds in [newBase] (the netloc holds no slash, question mark
    or hash: path, query and fragment are dropped), and the interactive URL
    equal to [newBase].  For [newBase] of the plain form [scheme://authority]
    followed by nothing or by a path, query or fragment, the market-data URL
    is [scheme://authority/apimarketdata]; after updating with
    [http://host:3000/2hostlookup] it is [http://host:3000/apimarketdata]
    and the interactive URL is [http://host:3000/2hostlookup]. *)
Theorem update_base_url_sets_urls (env : Env) (st : State)
    (newBase scheme netloc : string) :
  urlparse env (JStr newBase) = Ok (scheme, netloc) ->
  update_base_url env (JStr newBase) st =
    (Ok tt,
     {| config := {| BASE_URL := JStr newBase;
                     MARKET_DATA_URL :=
                       Some (scheme ++ "://" ++ netloc ++ "/apimarketdata");
                     INTERACTIVE_URL := Some newBase |};
        sent := sent st |})
  /\ str_existsb is_netloc_delim netloc = false
  /\ (forall sch authority path,
        is_lower_scheme sch = true ->
        is_plain_authority authority = true ->
        is_path_part path = true ->
        update_base_url env (JStr (sch ++ "://" ++ authority ++ path)) st =
          (Ok tt,
           {| config := {| BASE_URL := JStr (sch ++ "://" ++ authority ++ path);
                           MARKET_DATA_URL :=
                             Some (sch ++ "://" ++ authority ++ "/apimarketdata");
                           INTERACTIVE_URL :=
                             Some (sch ++ "://" ++ authority ++ path) |};
              sent := sent st |}))
  /\ update_base_url env (JStr "http://host:3000/2hostlookup") st =
       (Ok tt,
        {| config := {| BASE_URL := JStr "http://host:3000/2hostlookup";
                        MARKET_DATA_URL := Some "http://host:3000/apimarketdata";
                        INTERACTIVE_URL := Some "http://host:3000/2hostlookup" |};
           sent := sent st |}).
Proof.
  intros H. split; [|split; [|split]].
  - now rewrite (update_base_url_ok env st _ scheme netloc H).
  - exact (urlsplit_netloc_no_delim env newBase scheme netloc H).
  - intros sch authority path Hs Ha Hp.
    now rewrite (update_base_url_ok env st
                   (JStr (sch ++ "://" ++ authority ++ path)) sch authority
                   (urlsplit_plain env sch authority path Hs Ha Hp)).
  - now rewrite (update_base_url_ok env st _ "http" "host:3000").
Qed.

Lemma update_base_url_sets_urls_witness :
  urlparse (Samples.server []) (JStr "HTTPS://User@Example.org:8443/a/b?q#f") =
    Ok ("https", "User@Example.org:8443")
  /\ update_base_url (Samples.server [])
       (JStr "HTTPS://User@Example.org:8443/a/b?q#f") Samples.fresh =
       (Ok tt,
        {| config := {| BASE_URL := JStr "HTTPS://User@Example.org:8443/a/b?q#f";
                        MARKET_DATA_URL :=
                          Some "https://User@Example.org:8443/apimarketdata";
                        INTERACTIVE_URL :=
                          Some "HTTPS://User@Example.org:8443/a/b?q#f" |};
           sent := [] |}).
Proof.
  split; [reflexivity|].
  exact (proj1 (update_base_url_sets_urls (Samples.server []) Samples.fresh
                  "HTTPS://User@Example.org:8443/a/b?q#f" "https"
                  "User@Example.org:8443" eq_refl)).
Defined.

(** C6, as stated, fails: after [update_base_url("http://[")] raises, the
    base URL is the new string while the derived URLs are still those of
    the previous base. *)
Lemma stale_derived_urls_after_raise :
  config (snd (update_base_url (Samples.server []) (JStr "http://[") Samples.fresh)) =
    {| BASE_URL := JStr "http://[";
       MARKET_DATA_URL :=
         Some "http://xtstradingnse.aryafingroup.in:3000/apimarketdata";
       INTERACTIVE_URL := Some "http://xtstradingnse.aryafingroup.in:3000" |}
  /\ ~ derived_consistent (Samples.server [])
        (config (snd (update_base_url (Samples.server []) (JStr "http://[")
                        Samples.fresh))).
Proof.
  split; [reflexivity|].
  intros (scheme & netloc & _ & _ & H). discriminate H.
Qed.

(** C6 (amended): importing the module leaves the derived URLs consistent
    with the default base URL, and so does every call of [update_base_url]
    that returns: then [MARKET_DATA_URL] is [scheme://netloc/apimarketdata]
    for the scheme and netloc of the current [BASE_URL], and
    [INTERACTIVE_URL] is the current [BASE_URL]. *)
Theorem derived_urls_consistent (env : Env) (st st' : State) (v : Json) :
  update_base_url env v st = (Ok tt, st') ->
  derived_consistent env (config st')
  /\ exists st0,
       import_baseurl env = (Ok tt, st0) /\ derived_consistent env (config st0).
Proof.
  intros H. split.
  - exact (update_base_url_inv env st st' v (Ok tt) H eq_refl).
  - exists Samples.fresh. split; [apply import_baseurl_eq|].
    exists "http", "xtstradingnse.aryafingroup.in:3000". repeat split.
Qed.

Lemma derived_urls_consistent_witness :
  update_base_url (Samples.server []) (JStr Samples.host) Samples.fresh =
    (Ok tt, Samples.rebased)
  /\ derived_consistent (Samples.server []) (config Samples.rebased).
Proof.
  split; [reflexivity|].
  apply (derived_urls_consistent (Samples.server []) Samples.fresh Samples.rebased
           (JStr Samples.host)).
  reflexivity.
Defined.

(* ================================================================= *)
(** ** The request chain: statements *)

Ltac run := repeat (progress (unfold_run; cbn)).

(** C9: [authenticate_broker] ignores [request_token]: with the environment
    and the state fixed, any two tokens give the same result tuple and the
    same final state. *)
Theorem request_token_is_dead (env : Env) (t1 t2 : Json) (st : State) :
  authenticate_broker env t1 st = authenticate_broker env t2 st.
Proof. reflexivity. Qed.

(** C4: when the host-lookup POST raises [e], [authenticate_broker] returns
    [(None, None, None, error)] with [error] ending in the text of [e], the
    registry is untouched, and the only request of the run is the lookup
    request: no session login, no feed login. *)
Theorem lookup_exception_stops_chain (env : Env) (request_token : Json)
    (st : State) (e : Exn) :
  httpx_client_error env = None ->
  post env (hostlookup_request env) = PostRaises e ->
  authenticate_broker env request_token st =
    (Ok (JNull, JNull, JNull, Some ("Error during hostlookup: " ++ str_exn env e)),
     {| config := config st; sent := sent st ++ [hostlookup_request env] |}).
Proof.
  intros Hc Hp.
  unfold authenticate_broker, authenticate_broker_try, hostlookup_login,
    hostlookup_try, hostlookup_request in *.
  run. rewrite Hc. run. rewrite Hp. run. reflexivity.
Qed.

Lemma lookup_exception_stops_chain_witness :
  authenticate_broker (Samples.server []) (JStr "unused") Samples.fresh =
    (Ok (JNull, JNull, JNull, Some "Error during hostlookup: connection refused"),
     {| config := config Samples.fresh;
        sent := [hostlookup_request (Samples.server [])] |}).
Proof.
  apply (lookup_exception_stops_chain (Samples.server []) (JStr "unused")
           Samples.fresh (TransportError "connection refused"));
    reflexivity.
Defined.

(** C5: for a lookup response with status 200, when [result.connectionString]
    and [result.uniqueKey] are both present and non-empty (true values for
    Python; for strings, not the empty string), [hostlookup_login] returns
    the two of them unchanged with a [None] error; when either is missing,
    it returns [(None, None, e)] for some error string [e]. *)
Theorem hostlookup_login_result (env : Env) (st : State) (r : Response) :
  httpx_client_error env = None ->
  post env (hostlookup_request env) = PostReturns r ->
  status_code r = 200%Z ->
  (forall cs uk,
      result_field r "connectionString" = Some cs ->
      result_field r "uniqueKey" = Some uk ->
      truthy cs = true -> truthy uk = true ->
      hostlookup_login env st =
        (Ok (cs, uk, None),
         {| config := config st; sent := sent st ++ [hostlookup_request env] |}))
  /\ (forall cs uk,
      result_field r "connectionString" = Some (JStr cs) ->
      result_field r "uniqueKey" = Some (JStr uk) ->
      cs <> "" -> uk <> "" ->
      hostlookup_login env st =
        (Ok (JStr cs, JStr uk, None),
         {| config := config st; sent := sent st ++ [hostlookup_request env] |}))
  /\ (result_field r "connectionString" = None
      \/ result_field r "uniqueKey" = None ->
      exists e,
        hostlookup_login env st =
          (Ok (JNull, JNull, Some e),
           {| config := config st; sent := sent st ++ [hostlookup_request env] |})).
Proof.
  intros Hc Hp Hs.
  assert (G : (forall cs uk,
      result_field r "connectionString" = Some cs ->
      result_field r "uniqueKey" = Some uk ->
      truthy cs = true -> truthy uk = true ->
      hostlookup_login env st =
        (Ok (cs, uk, None),
         {| config := config st; sent := sent st ++ [hostlookup_request env] |}))
    /\ (result_field r "connectionString" = None
        \/ result_field r "uniqueKey" = None ->
        exists e,
          hostlookup_login env st =
            (Ok (JNull, JNull, Some e),
             {| config := config st; sent := sent st ++ [hostlookup_request env] |}))).
  { unfold result_field, hostlookup_login, hostlookup_try, hostlookup_request in *.
    run. rewrite Hc. run. rewrite Hp. run. rewrite Hs. run.
    destruct (json r) as [body|ex]; run.
    2:{ split; [intros ? ? H; discriminate H | intros _; eexists; reflexivity]. }
    destruct body as [| | | | |body]; run;
      try (split; [intros ? ? H; discriminate H | intros _; eexists; reflexivity]).
    destruct (assoc "result" body) as [result|]; run.
    2:{ split; [intros ? ? H; discriminate H | intros _; eexists; reflexivity]. }
    destruct result as [| | | | |result]; run;
      try (split; [intros ? ? H; discriminate H | intros _; eexists; reflexivity]).
    split.
    - intros cs uk -> -> Hcs Huk. run. now rewrite Hcs, Huk.
    - intros [-> | ->]; run.
      + eexists; reflexivity.
      + rewrite andb_false_r. eexists; reflexivity. }
  destruct G as [G1 G2]. split; [exact G1|]. split; [|exact G2].
  intros cs uk H1 H2 Hcs Huk. apply (G1 _ _ H1 H2); cbn.
  - apply String.eqb_neq in Hcs. now rewrite Hcs.
  - apply String.eqb_neq in Huk. now rewrite Huk.
Qed.

Lemma hostlookup_login_result_witness :
  hostlookup_login (Samples.server [Samples.lookup_ok]) Samples.fresh =
    (Ok (JStr Samples.host, JStr "K0j", None),
     {| config := config Samples.fresh;
        sent := [hostlookup_request (Samples.server [Samples.lookup_ok])] |}).
Proof.
  refine (proj1 (proj2 (hostlookup_login_result (Samples.server [Samples.lookup_ok])
                   Samples.fresh
                   {| status_code := 200; json := Ok _ |}
                   eq_refl eq_refl eq_refl))
            Samples.host "K0j" eq_refl eq_refl _ _);
    discriminate.
Defined.

(** C10: when the feed-login response has status 200 and type [success]
    and its [result] object lacks [token] or [userID], [get_feed_token]
    still returns a [None] error; each of the two values is the field of
    [result] when present and [None] when absent. *)
Theorem feed_success_with_missing_field (env : Env) (st : State) (m : string)
    (r : Response) (body result : list (string * Json)) :
  MARKET_DATA_URL (config st) = Some m ->
  httpx_client_error env = None ->
  post env (feed_request env m) = PostReturns r ->
  status_code r = 200%Z ->
  json r = Ok (JObj body) ->
  assoc "type" body = Some (JStr "success") ->
  assoc "result" body = Some (JObj result) ->
  assoc "token" result = None \/ assoc "userID" result = None ->
  exists feed_token user_id,
    get_feed_token env st =
      (Ok (feed_token, user_id, None),
       {| config := config st; sent := sent st ++ [feed_request env m] |})
    /\ feed_token = match assoc "token" result with Some v => v | None => JNull end
    /\ user_id = match assoc "userID" result with Some v => v | None => JNull end.
Proof.
  intros Hm Hc Hp Hs Hj Ht Hr _.
  unfold get_feed_token, get_feed_token_try, feed_request in *.
  run. rewrite Hm. run. rewrite Hc. run. rewrite Hp. run. rewrite Hs. run.
  rewrite Hj. run. rewrite Ht. run. rewrite Hr. run.
  do 2 eexists. split; [reflexivity|]. split; reflexivity.
Qed.

Lemma feed_success_with_missing_field_witness :
  exists feed_token user_id,
    get_feed_token (Samples.server [Samples.feed_no_token]) Samples.rebased =
      (Ok (feed_token, user_id, None),
       {| config := config Samples.rebased;
          sent := [feed_request (Samples.server [Samples.feed_no_token])
                     "http://host:3000/apimarketdata"] |})
    /\ feed_token = JNull
    /\ user_id = JStr "U1".
Proof.
  apply (feed_success_with_missing_field (Samples.server [Samples.feed_no_token])
           Samples.rebased "http://host:3000/apimarketdata"
           {| status_code := 200; json := Ok _ |} _ [("userID", JStr "U1")]
           eq_refl eq_refl eq_refl eq_refl eq_refl eq_refl eq_refl
           (or_introl eq_refl)).
Defined.

(** C1, as stated, fails: with a session login that succeeds with token
    [TRADE] and a feed login answered by HTTP 500, the first component of
    the result is the session token, not [None]. *)
Lemma feed_failure_returns_session_token :
  authenticate_broker
    (Samples.server [Samples.lookup_ok; Samples.session_ok; Samples.feed_down])
    JNull Samples.fresh =
    (Ok (JStr "TRADE", JNull, JNull,
         Some "Feed token error: API Error (Feed): Service unavailable"),
     {| config := config Samples.rebased;
        sent :=
          [hostlookup_request (Samples.server []);
           session_request (Samples.server []) (JStr Samples.host) (JStr "K0j");
           feed_request (Samples.server []) "http://host:3000/apimarketdata"] |})
  /\ fst (authenticate_broker
            (Samples.server [Samples.lookup_ok; Samples.session_ok; Samples.feed_down])
            JNull Samples.fresh) <>
     Ok (JNull, JNull, JNull,
         Some "Feed token error: API Error (Feed): Service unavailable").
Proof.
  split; [reflexivity|].
  cbv. discriminate.
Qed.

Lemma hostlookup_login_ok_client (env : Env) (st st1 : State) (cs uk : Json) :
  hostlookup_login env st = (Ok (cs, uk, None), st1) ->
  httpx_client_error env = None.
Proof.
  intros H. destruct (httpx_client_error env) as [e|] eqn:E; [|reflexivity].
  unfold hostlookup_login, hostlookup_try in H. unfold_run.
  cbn in H. rewrite E in H. cbn in H. discriminate.
Qed.

Lemma hostlookup_login_state (env : Env) (st st1 : State) (t : LookupTuple) :
  hostlookup_login env st = (Ok t, st1) ->
  st1 = {| config := config st; sent := sent st ++ lookup_sent env |}.
Proof.
  intros H. destruct (hostlookup_login_returns env st) as (t' & E & _).
  rewrite H in E. now inversion E.
Qed.

Lemma get_feed_token_config (env : Env) (st st' : State) (r : Result FeedTuple) :
  get_feed_token env st = (r, st') -> config st' = config st.
Proof.
  intros H. destruct (get_feed_token_returns env st) as (t & E & _).
  rewrite H in E. now inversion E.
Qed.

(** C1 (amended): when the session login returns HTTP 200 with type
    [success] and [result.token], and the feed login that follows fails with
    error text [e], [authenticate_broker] returns
    [(token, None, None, "Feed token error: " + e)]: the session token is the
    first component of the tuple. *)
Theorem feed_failure_result (env : Env) (request_token : Json)
    (st st1 st2 st3 : State) (cs uk token feed_token user_id : Json)
    (r : Response) (body result : list (string * Json)) (e : string) :
  hostlookup_login env st = (Ok (cs, uk, None), st1) ->
  post env (session_request env cs uk) = PostReturns r ->
  status_code r = 200%Z ->
  json r = Ok (JObj body) ->
  assoc "type" body = Some (JStr "success") ->
  assoc "result" body = Some (JObj result) ->
  assoc "token" result = Some token ->
  update_base_url env cs
    {| config := config st1; sent := sent st1 ++ [session_request env cs uk] |} =
    (Ok tt, st2) ->
  get_feed_token env st2 = (Ok (feed_token, user_id, Some e), st3) ->
  authenticate_broker env request_token st =
    (Ok (token, JNull, JNull, Some ("Feed token error: " ++ e)), st3).
Proof.
  intros H1 Hp Hs Hj Ht Hr Hk Hu Hf.
  pose proof (hostlookup_login_ok_client _ _ _ _ _ H1) as Hc.
  assert (Hne : e <> "").
  { destruct (get_feed_token_returns env st2) as (t & E & _ & Hne).
    rewrite Hf in E. inversion E; subst t. now apply (Hne _ _ _ eq_refl). }
  unfold session_request in *.
  unfold authenticate_broker, authenticate_broker_try.
  run. rewrite Hc. run. rewrite H1. run. rewrite Hp. run. rewrite Hs. run.
  rewrite Hj. run. rewrite Hu. run. rewrite Ht. run. rewrite Hr. run.
  rewrite Hk. run. rewrite Hf. run.
  destruct e as [|c e]; [now elim Hne|]. run. reflexivity.
Qed.

Lemma feed_failure_result_witness :
  authenticate_broker
    (Samples.server [Samples.lookup_ok; Samples.session_ok; Samples.feed_down])
    (JStr "unused") Samples.fresh =
    (Ok (JStr "TRADE", JNull, JNull,
         Some "Feed token error: API Error (Feed): Service unavailable"),
     {| config := config Samples.rebased;
        sent :=
          [hostlookup_request (Samples.server []);
           session_request (Samples.server []) (JStr Samples.host) (JStr "K0j");
           feed_request (Samples.server []) "http://host:3000/apimarketdata"] |}).
Proof.
  apply (feed_failure_result
           (Samples.server [Samples.lookup_ok; Samples.session_ok; Samples.feed_down])
           (JStr "unused") Samples.fresh
           {| config := config Samples.fresh;
              sent := [hostlookup_request (Samples.server [])] |}
           {| config := config Samples.rebased;
              sent := [hostlookup_request (Samples.server []);
                       session_request (Samples.server [])
                         (JStr Samples.host) (JStr "K0j")] |}
           _ (JStr Samples.host) (JStr "K0j") (JStr "TRADE") JNull JNull
           {| status_code := 200; json := Ok (JObj Samples.session_ok_body) |}
           Samples.session_ok_body [("token", JStr "TRADE")]
           "API Error (Feed): Service unavailable");
    reflexivity.
Defined.

(** C7: whenever [authenticate_broker] returns a session token that is not
    [None], the session login had returned HTTP 200 and the feed-login
    request was sent after it, in the same call: the run added exactly the
    lookup, session and feed requests to the log, in that order. *)
Theorem session_token_implies_feed_attempt (env : Env) (request_token : Json)
    (st st' : State) (token feed_token user_id : Json) (err : option string) :
  authenticate_broker env request_token st =
    (Ok (token, feed_token, user_id, err), st') ->
  token <> JNull ->
  exists cs uk m r,
    post env (session_request env cs uk) = PostReturns r
    /\ status_code r = 200%Z
    /\ sent st' = (sent st ++
          [hostlookup_request env; session_request env cs uk;
           feed_request env m])%list.
Proof.
  intros H Htok.
  destruct (authenticate_broker_returns env request_token st)
    as (a & b & c & d & s & E & _ & Hlog).
  rewrite H in E. inversion E; subst. now apply Hlog.
Qed.

Lemma session_token_implies_feed_attempt_witness :
  exists cs uk m r,
    post (Samples.server [Samples.lookup_ok; Samples.session_ok; Samples.feed_ok])
      (session_request (Samples.server []) cs uk) = PostReturns r
    /\ status_code r = 200%Z
    /\ [hostlookup_request (Samples.server []);
        session_request (Samples.server []) (JStr Samples.host) (JStr "K0j");
        feed_request (Samples.server []) "http://host:3000/apimarketdata"] =
       ([] ++ [hostlookup_request (Samples.server []);
               session_request (Samples.server []) cs uk;
               feed_request (Samples.server []) m])%list.
Proof.
  apply (session_token_implies_feed_attempt
           (Samples.server [Samples.lookup_ok; Samples.session_ok; Samples.feed_ok])
           (JStr "unused") Samples.fresh
           {| config := config Samples.rebased;
              sent := [hostlookup_request (Samples.server []);
                       session_request (Samples.server [])
                         (JStr Samples.host) (JStr "K0j");
                       feed_request (Samples.server [])
                         "http://host:3000/apimarketdata"] |}
           (JStr "TRADE") (JStr "FEED") (JStr "U1") None);
    [reflexivity | discriminate].
Defined.

(** C2, as stated, fails: the lookup succeeds with connection string
    [http://host:3000/2hostlookup], the session login answers HTTP 401, and
    the registry still holds the default base URL. *)
Lemma failed_session_keeps_old_base :
  hostlookup_login (Samples.server [Samples.lookup_ok; Samples.session_denied])
    Samples.fresh =
    (Ok (JStr Samples.host, JStr "K0j", None),
     {| config := config Samples.fresh;
        sent := [hostlookup_request (Samples.server [])] |})
  /\ authenticate_broker (Samples.server [Samples.lookup_ok; Samples.session_denied])
       JNull Samples.fresh =
     (Ok (JNull, JNull, JNull, Some "API error: Invalid credentials"),
      {| config := config Samples.fresh;
         sent := [hostlookup_request (Samples.server []);
                  session_request (Samples.server [])
                    (JStr Samples.host) (JStr "K0j")] |})
  /\ BASE_URL (config (snd (authenticate_broker
                              (Samples.server [Samples.lookup_ok; Samples.session_denied])
                              JNull Samples.fresh))) <>
     JStr Samples.host.
Proof.
  split; [reflexivity|]. split; [reflexivity|].
  cbv. discriminate.
Qed.

(** C2 (amended): in a run in which the lookup returned connection string
    [cs], the registry's base URL becomes [cs] exactly when the session
    login answers HTTP 200 with a body that decodes, whatever that body
    says; when the session request raises, answers another status, or
    answers 200 with an undecodable body, the registry is left as it was. *)
Theorem registry_rebased_on_http_200 (env : Env) (request_token : Json)
    (st st1 : State) (cs uk : Json) :
  hostlookup_login env st = (Ok (cs, uk, None), st1) ->
  (forall r body,
      post env (session_request env cs uk) = PostReturns r ->
      status_code r = 200%Z -> json r = Ok body ->
      BASE_URL (config (snd (authenticate_broker env request_token st))) = cs)
  /\ (forall e,
      post env (session_request env cs uk) = PostRaises e ->
      config (snd (authenticate_broker env request_token st)) = config st)
  /\ (forall r,
      post env (session_request env cs uk) = PostReturns r ->
      status_code r <> 200%Z ->
      config (snd (authenticate_broker env request_token st)) = config st)
  /\ (forall r e,
      post env (session_request env cs uk) = PostReturns r ->
      status_code r = 200%Z -> json r = Raise e ->
      config (snd (authenticate_broker env request_token st)) = config st).
Proof.
  intros H1.
  pose proof (hostlookup_login_ok_client _ _ _ _ _ H1) as Hc.
  pose proof (hostlookup_login_state _ _ _ _ H1) as Hst.
  assert (Hcfg : config st1 = config st) by now rewrite Hst.
  clear Hst.
  unfold session_request in *.
  unfold authenticate_broker, authenticate_broker_try.
  run. rewrite Hc. run. rewrite H1. run.
  split; [|split; [|split]].
  - intros r body Hp Hs Hj. rewrite Hp. run. rewrite Hs. run. rewrite Hj. run.
    match goal with
    | |- context [update_base_url env cs ?s] =>
        pose proof (update_base_url_base env s cs) as [Hb _];
        destruct (update_base_url env cs s) as [[u|ex] s2] eqn:Hu
    end; cbn in Hb; [|exact Hb].
    split_run;
      try match goal with
        | H : get_feed_token env _ = _ |- _ =>
            rewrite (get_feed_token_config _ _ _ _ H)
        end; exact Hb.
  - intros e Hp. rewrite Hp. run. exact Hcfg.
  - intros r Hp Hs. rewrite Hp. run.
    apply Z.eqb_neq in Hs. rewrite Hs.
    split_run; exact Hcfg.
  - intros r e Hp Hs Hj. rewrite Hp. run. rewrite Hs. run. rewrite Hj. run.
    exact Hcfg.
Qed.

Lemma registry_rebased_on_http_200_witness :
  BASE_URL (config (snd (authenticate_broker
                           (Samples.server [Samples.lookup_ok; Samples.session_ok])
                           (JStr "unused") Samples.fresh))) =
  JStr Samples.host.
Proof.
  refine (proj1 (registry_rebased_on_http_200
                   (Samples.server [Samples.lookup_ok; Samples.session_ok])
                   (JStr "unused") Samples.fresh
                   {| config := config Samples.fresh;
                      sent := [hostlookup_request (Samples.server [])] |}
                   (JStr Samples.host) (JStr "K0j") eq_refl)
            {| status_code := 200; json := Ok (JObj Samples.session_ok_body) |}
            (JObj Samples.session_ok_body) eq_refl eq_refl eq_refl).
Defined.

(** C8, as stated, fails for [authenticate_broker]: when the feed login
    fails, the error string comes with a session token that is not
    [None]. *)
Lemma feed_failure_tuple_not_null :
  exists t st',
    authenticate_broker
      (Samples.server [Samples.lookup_ok; Samples.session_ok; Samples.feed_down])
      JNull Samples.fresh = (Ok t, st')
    /\ ~ auth_failure_is_null t.
Proof.
  exists (JStr "TRADE", JNull, JNull,
          Some "Feed token error: API Error (Feed): Service unavailable").
  exists {| config := config Samples.rebased;
            sent :=
              [hostlookup_request (Samples.server []);
               session_request (Samples.server []) (JStr Samples.host) (JStr "K0j");
               feed_request (Samples.server []) "http://host:3000/apimarketdata"] |}.
  split; [reflexivity|].
  cbn. intros [H _]. discriminate H.
Qed.

(** C8 (amended): no entry point lets an [Exception] out: each of
    [hostlookup_login], [get_feed_token] and [authenticate_broker] returns a
    tuple, for every environment and state.  In the tuples of
    [hostlookup_login] and [get_feed_token] an error string comes with
    [None] values.  In the tuple of [authenticate_broker] an error string
    comes with a [None] feed token and user id, and with a [None] session
    token unless the error is the feed-login one. *)
Theorem entry_points_return (env : Env) (request_token : Json) (st : State) :
  (exists t st', hostlookup_login env st = (Ok t, st') /\ failure_is_null t)
  /\ (exists t st', get_feed_token env st = (Ok t, st') /\ failure_is_null t)
  /\ (exists token feed_token user_id err st',
        authenticate_broker env request_token st =
          (Ok (token, feed_token, user_id, err), st')
        /\ (err <> None ->
            feed_token = JNull /\ user_id = JNull
            /\ (token = JNull
                \/ exists e, err = Some ("Feed token error: " ++ e)))).
Proof.
  split; [|split].
  - destruct (hostlookup_login_returns env st) as (t & E & Hn & _). eauto.
  - destruct (get_feed_token_returns env st) as (t & E & Hn & _). eauto.
  - destruct (authenticate_broker_returns env request_token st)
      as (a & b & c & d & s & E & Hn & _).
    exists a, b, c, d, s. auto.
Qed.

(* ================================================================= *)
(** ** Host lookup: further behaviour *)

(** X1: a lookup answer with a status other than 200 is not decoded:
    [hostlookup_login] returns the fixed "Unknown error" tuple, whatever the
    body is, having sent the one lookup request and left the registry
    alone. *)
Theorem hostlookup_non_200 (env : Env) (st : State) (r : Response) :
  httpx_client_error env = None ->
  post env (hostlookup_request env) = PostReturns r ->
  status_code r <> 200%Z ->
  hostlookup_login env st =
    (Ok (JNull, JNull,
         Some "Error during hostlookup: Unknown error or unexpected response."),
     {| config := config st; sent := sent st ++ [hostlookup_request env] |}).
Proof.
  intros Hc Hp Hs.
  unfold hostlookup_login, hostlookup_try, hostlookup_request in *.
  run. rewrite Hc. run. rewrite Hp. run.
  apply Z.eqb_neq in Hs. rewrite Hs. run. reflexivity.
Qed.

Lemma hostlookup_non_200_witness :
  hostlookup_login
    (Samples.server [(HOST_LOOKUP_URL, Samples.reply 503 (JStr "maintenance"))])
    Samples.fresh =
    (Ok (JNull, JNull,
         Some "Error during hostlookup: Unknown error or unexpected response."),
     {| config := config Samples.fresh;
        sent := [hostlookup_request (Samples.server [])] |}).
Proof.
  apply (hostlookup_non_200
           (Samples.server [(HOST_LOOKUP_URL, Samples.reply 503 (JStr "maintenance"))])
           Samples.fresh
           {| status_code := 503; json := Ok (JStr "maintenance") |});
    [reflexivity | reflexivity | discriminate].
Defined.

(** X2: whatever the environment does, [hostlookup_login] leaves the
    registry as it was and sends at most one request: the lookup request
    when the client is available, none otherwise.  The request does not
    depend on the registry. *)
Theorem hostlookup_login_frame (env : Env) (st : State) :
  exists t,
    hostlookup_login env st =
      (Ok t, {| config := config st; sent := sent st ++ lookup_sent env |})
    /\ (lookup_sent env = [] \/ lookup_sent env = [hostlookup_request env]).
Proof.
  destruct (hostlookup_login_returns env st) as (t & E & _).
  exists t. split; [exact E|].
  unfold lookup_sent. destruct (httpx_client_error env); auto.
Qed.

(** X3: with status 200 and a [result] object, a [connectionString] or
    [uniqueKey] that is absent, null, empty or otherwise false gives the
    "Incomplete response data" error. *)
Theorem hostlookup_incomplete (env : Env) (st : State) (r : Response)
    (body result : list (string * Json)) :
  httpx_client_error env = None ->
  post env (hostlookup_request env) = PostReturns r ->
  status_code r = 200%Z ->
  json r = Ok (JObj body) ->
  assoc "result" body = Some (JObj result) ->
  truthy (field_or_null "connectionString" result) = false
  \/ truthy (field_or_null "uniqueKey" result) = false ->
  hostlookup_login env st =
    (Ok (JNull, JNull, Some "Error during hostlookup: Incomplete response data."),
     {| config := config st; sent := sent st ++ [hostlookup_request env] |}).
Proof.
  intros Hc Hp Hs Hj Hr Hf.
  unfold field_or_null, hostlookup_login, hostlookup_try, hostlookup_request in *.
  run. rewrite Hc. run. rewrite Hp. run. rewrite Hs. run. rewrite Hj. run.
  rewrite Hr. run.
  destruct Hf as [Hf | Hf]; rewrite Hf; rewrite ?andb_false_r; reflexivity.
Qed.

Lemma hostlookup_incomplete_witness :
  hostlookup_login
    (Samples.server
       [(HOST_LOOKUP_URL,
         Samples.reply 200
           (JObj [("result", JObj [("connectionString", JStr Samples.host);
                                   ("uniqueKey", JStr "")])]))])
    Samples.fresh =
    (Ok (JNull, JNull, Some "Error during hostlookup: Incomplete response data."),
     {| config := config Samples.fresh;
        sent := [hostlookup_request (Samples.server [])] |}).
Proof.
  apply (hostlookup_incomplete
           (Samples.server
              [(HOST_LOOKUP_URL,
                Samples.reply 200
                  (JObj [("result", JObj [("connectionString", JStr Samples.host);
                                          ("uniqueKey", JStr "")])]))])
           Samples.fresh
           {| status_code := 200;
              json := Ok (JObj [("result",
                                 JObj [("connectionString", JStr Samples.host);
                                       ("uniqueKey", JStr "")])]) |}
           [("result", JObj [("connectionString", JStr Samples.host);
                             ("uniqueKey", JStr "")])]
           [("connectionString", JStr Samples.host); ("uniqueKey", JStr "")]
           eq_refl eq_refl eq_refl eq_refl eq_refl (or_intror eq_refl)).
Defined.

(** X4: with status 200, a body that does not decode gives the error
    "Error during hostlookup: " followed by the text of the decoder's
    exception, and a decoded object without a [result] key gives the same
    prefix followed by the text of the [AttributeError] of [None.get]. *)
Theorem hostlookup_undecodable (env : Env) (st : State) (r : Response) :
  httpx_client_error env = None ->
  post env (hostlookup_request env) = PostReturns r ->
  status_code r = 200%Z ->
  (forall e,
      json r = Raise e ->
      hostlookup_login env st =
        (Ok (JNull, JNull, Some ("Error during hostlookup: " ++ str_exn env e)),
         {| config := config st; sent := sent st ++ [hostlookup_request env] |}))
  /\ (forall body,
      json r = Ok (JObj body) -> assoc "result" body = None ->
      hostlookup_login env st =
        (Ok (JNull, JNull,
             Some ("Error during hostlookup: "
                   ++ str_exn env (AttributeError "NoneType" "get"))),
         {| config := config st; sent := sent st ++ [hostlookup_request env] |})).
Proof.
  intros Hc Hp Hs.
  unfold hostlookup_login, hostlookup_try, hostlookup_request in *.
  run. rewrite Hc. run. rewrite Hp. run. rewrite Hs. run.
  split.
  - intros e Hj. rewrite Hj. run. reflexivity.
  - intros body Hj Hr. rewrite Hj. run. rewrite Hr. run. reflexivity.
Qed.

Lemma hostlookup_undecodable_witness :
  hostlookup_login
    (Samples.server [(HOST_LOOKUP_URL, Samples.reply 200 (JObj [("type", JBool false)]))])
    Samples.fresh =
    (Ok (JNull, JNull,
         Some "Error during hostlookup: 'NoneType' object has no attribute 'get'"),
     {| config := config Samples.fresh;
        sent := [hostlookup_request (Samples.server [])] |}).
Proof.
  refine (proj2 (hostlookup_undecodable
                   (Samples.server
                      [(HOST_LOOKUP_URL, Samples.reply 200 (JObj [("type", JBool false)]))])
                   Samples.fresh
                   {| status_code := 200; json := Ok (JObj [("type", JBool false)]) |}
                   eq_refl eq_refl eq_refl)
            [("type", JBool false)] eq_refl eq_refl).
Defined.

(* ================================================================= *)
(** ** Feed login: further behaviour *)

(** X5: whatever the environment does, [get_feed_token] leaves the registry
    as it was and sends at most one request, to the registry's current
    market-data URL followed by [/auth/login], with the market credentials
    as payload. *)
Theorem get_feed_token_frame (env : Env) (st : State) :
  exists t,
    get_feed_token env st =
      (Ok t, {| config := config st; sent := sent st ++ feed_sent env (config st) |})
    /\ (feed_sent env (config st) = []
        \/ exists m,
             MARKET_DATA_URL (config st) = Some m
             /\ feed_sent env (config st) =
                [{| req_url := m ++ "/auth/login";
                    req_json := feed_payload env;
                    req_headers := json_headers |}]).
Proof.
  destruct (get_feed_token_returns env st) as (t & E & _).
  exists t. split; [exact E|].
  unfold feed_sent, feed_request.
  destruct (MARKET_DATA_URL (config st)) as [m|]; [|now left].
  destruct (httpx_client_error env); [now left|].
  right. now exists m.
Qed.

(** X6: called on its own, with a feed-login answer of status 200, type
    [success] and a [result] object, [get_feed_token] returns
    [(result.token, result.userID, None)] after exactly one request. *)
Theorem get_feed_token_success (env : Env) (st : State) (m : string)
    (r : Response) (body result : list (string * Json)) :
  MARKET_DATA_URL (config st) = Some m ->
  httpx_client_error env = None ->
  post env (feed_request env m) = PostReturns r ->
  status_code r = 200%Z ->
  json r = Ok (JObj body) ->
  assoc "type" body = Some (JStr "success") ->
  assoc "result" body = Some (JObj result) ->
  get_feed_token env st =
    (Ok (field_or_null "token" result, field_or_null "userID" result, None),
     {| config := config st; sent := sent st ++ [feed_request env m] |}).
Proof.
  intros Hm Hc Hp Hs Hj Ht Hr.
  unfold field_or_null, get_feed_token, get_feed_token_try, feed_request in *.
  run. rewrite Hm. run. rewrite Hc. run. rewrite Hp. run. rewrite Hs. run.
  rewrite Hj. run. rewrite Ht. run. rewrite Hr. run. reflexivity.
Qed.

Lemma get_feed_token_success_witness :
  get_feed_token (Samples.server [Samples.feed_ok]) Samples.rebased =
    (Ok (JStr "FEED", JStr "U1", None),
     {| config := config Samples.rebased;
        sent := [feed_request (Samples.server []) "http://host:3000/apimarketdata"] |}).
Proof.
  exact (get_feed_token_success (Samples.server [Samples.feed_ok]) Samples.rebased
           "http://host:3000/apimarketdata"
           {| status_code := 200;
              json := Ok (JObj [("type", JStr "success");
                                ("result", JObj [("token", JStr "FEED");
                                                 ("userID", JStr "U1")])]) |}
           [("type", JStr "success");
            ("result", JObj [("token", JStr "FEED"); ("userID", JStr "U1")])]
           [("token", JStr "FEED"); ("userID", JStr "U1")]
           eq_refl eq_refl eq_refl eq_refl eq_refl eq_refl eq_refl).
Defined.

(** X7: a feed-login answer with a status other than 200 and an object as
    body gives [(None, None, "API Error (Feed): " + d)], where [d] is the
    body's [description], or "Feed token request failed. Please try again."
    when the body has none. *)
Theorem get_feed_token_http_error (env : Env) (st : State) (m : string)
    (r : Response) (body : list (string * Json)) :
  MARKET_DATA_URL (config st) = Some m ->
  httpx_client_error env = None ->
  post env (feed_request env m) = PostReturns r ->
  status_code r <> 200%Z ->
  json r = Ok (JObj body) ->
  get_feed_token env st =
    (Ok (JNull, JNull,
         Some ("API Error (Feed): "
               ++ match assoc "description" body with
                  | Some d => format_value env d
                  | None => "Feed token request failed. Please try again."
                  end)),
     {| config := config st; sent := sent st ++ [feed_request env m] |}).
Proof.
  intros Hm Hc Hp Hs Hj.
  unfold get_feed_token, get_feed_token_try, feed_request in *.
  run. rewrite Hm. run. rewrite Hc. run. rewrite Hp. run.
  apply Z.eqb_neq in Hs. rewrite Hs. run. rewrite Hj. run.
  destruct (assoc "description" body); reflexivity.
Qed.

Lemma get_feed_token_http_error_witness :
  get_feed_token
    (Samples.server [("http://host:3000/apimarketdata/auth/login",
                      Samples.reply 403 (JObj [("code", JStr "e-auth")]))])
    Samples.rebased =
    (Ok (JNull, JNull,
         Some "API Error (Feed): Feed token request failed. Please try again."),
     {| config := config Samples.rebased;
        sent := [feed_request (Samples.server []) "http://host:3000/apimarketdata"] |}).
Proof.
  apply (get_feed_token_http_error
           (Samples.server [("http://host:3000/apimarketdata/auth/login",
                             Samples.reply 403 (JObj [("code", JStr "e-auth")]))])
           Samples.rebased "http://host:3000/apimarketdata"
           {| status_code := 403; json := Ok (JObj [("code", JStr "e-auth")]) |}
           [("code", JStr "e-auth")]);
    [reflexivity | reflexivity | reflexivity | discriminate | reflexivity].
Defined.

(** X8: a feed-login answer of status 200 whose [type] is absent or is not
    the string [success] gives the fixed "Please check the response" error;
    the [result] object is not looked at. *)
Theorem get_feed_token_not_success (env : Env) (st : State) (m : string)
    (r : Response) (body : list (string * Json)) :
  MARKET_DATA_URL (config st) = Some m ->
  httpx_client_error env = None ->
  post env (feed_request env m) = PostReturns r ->
  status_code r = 200%Z ->
  json r = Ok (JObj body) ->
  py_eq_str (field_or_null "type" body) "success" = false ->
  get_feed_token env st =
    (Ok (JNull, JNull,
         Some "Feed token request failed. Please check the response."),
     {| config := config st; sent := sent st ++ [feed_request env m] |}).
Proof.
  intros Hm Hc Hp Hs Hj Ht.
  unfold field_or_null, get_feed_token, get_feed_token_try, feed_request in *.
  run. rewrite Hm. run. rewrite Hc. run. rewrite Hp. run. rewrite Hs. run.
  rewrite Hj. run. rewrite Ht. reflexivity.
Qed.

Lemma get_feed_token_not_success_witness :
  get_feed_token
    (Samples.server [("http://host:3000/apimarketdata/auth/login",
                      Samples.reply 200
                        (JObj [("type", JStr "error");
                               ("result", JObj [("token", JStr "FEED")])]))])
    Samples.rebased =
    (Ok (JNull, JNull,
         Some "Feed token request failed. Please check the response."),
     {| config := config Samples.rebased;
        sent := [feed_request (Samples.server []) "http://host:3000/apimarketdata"] |}).
Proof.
  exact (get_feed_token_not_success
           (Samples.server [("http://host:3000/apimarketdata/auth/login",
                             Samples.reply 200
                               (JObj [("type", JStr "error");
                                      ("result", JObj [("token", JStr "FEED")])]))])
           Samples.rebased "http://host:3000/apimarketdata"
           {| status_code := 200;
              json := Ok (JObj [("type", JStr "error");
                                ("result", JObj [("token", JStr "FEED")])]) |}
           [("type", JStr "error"); ("result", JObj [("token", JStr "FEED")])]
           eq_refl eq_refl eq_refl eq_refl eq_refl eq_refl).
Defined.

(** X9: a feed-login answer of status 200 and type [success] that has no
    [result] key is an error, unlike a [result] object without [token]: the
    [KeyError] is caught and its text returned after "An exception
    occurred: ". *)
Theorem get_feed_token_missing_result (env : Env) (st : State) (m : string)
    (r : Response) (body : list (string * Json)) :
  MARKET_DATA_URL (config st) = Some m ->
  httpx_client_error env = None ->
  post env (feed_request env m) = PostReturns r ->
  status_code r = 200%Z ->
  json r = Ok (JObj body) ->
  assoc "type" body = Some (JStr "success") ->
  assoc "result" body = None ->
  get_feed_token env st =
    (Ok (JNull, JNull,
         Some ("An exception occurred: " ++ str_exn env (KeyError "result"))),
     {| config := config st; sent := sent st ++ [feed_request env m] |}).
Proof.
  intros Hm Hc Hp Hs Hj Ht Hr.
  unfold get_feed_token, get_feed_token_try, feed_request in *.
  run. rewrite Hm. run. rewrite Hc. run. rewrite Hp. run. rewrite Hs. run.
  rewrite Hj. run. rewrite Ht. run. rewrite Hr. run. reflexivity.
Qed.

Lemma get_feed_token_missing_result_witness :
  get_feed_token
    (Samples.server [("http://host:3000/apimarketdata/auth/login",
                      Samples.reply 200 (JObj [("type", JStr "success")]))])
    Samples.rebased =
    (Ok (JNull, JNull, Some "An exception occurred: 'result'"),
     {| config := config Samples.rebased;
        sent := [feed_request (Samples.server []) "http://host:3000/apimarketdata"] |}).
Proof.
  exact (get_feed_token_missing_result
           (Samples.server [("http://host:3000/apimarketdata/auth/login",
                             Samples.reply 200 (JObj [("type", JStr "success")]))])
           Samples.rebased "http://host:3000/apimarketdata"
           {| status_code := 200; json := Ok (JObj [("type", JStr "success")]) |}
           [("type", JStr "success")]
           eq_refl eq_refl eq_refl eq_refl eq_refl eq_refl eq_refl).
Defined.

(* ================================================================= *)
(** ** The login sequence: further behaviour *)

(** the state in which the session login leaves the log *)
Ltac chain_start H1 Hc :=
  unfold session_request in *;
  unfold authenticate_broker, authenticate_broker_try;
  run; rewrite Hc; run; rewrite H1; run.

(** X10: when the lookup, the session login (HTTP 200, type [success],
    [result.token]) and the feed login all succeed, [authenticate_broker]
    returns [(token, feed_token, user_id, None)], the feed token and user id
    being those [get_feed_token] returned from the rebased registry. *)
Theorem authenticate_success (env : Env) (request_token : Json)
    (st st1 st2 st3 : State) (cs uk token feed_token user_id : Json)
    (r : Response) (body result : list (string * Json)) :
  hostlookup_login env st = (Ok (cs, uk, None), st1) ->
  post env (session_request env cs uk) = PostReturns r ->
  status_code r = 200%Z ->
  json r = Ok (JObj body) ->
  assoc "type" body = Some (JStr "success") ->
  assoc "result" body = Some (JObj result) ->
  assoc "token" result = Some token ->
  update_base_url env cs
    {| config := config st1; sent := sent st1 ++ [session_request env cs uk] |} =
    (Ok tt, st2) ->
  get_feed_token env st2 = (Ok (feed_token, user_id, None), st3) ->
  authenticate_broker env request_token st =
    (Ok (token, feed_token, user_id, None), st3).
Proof.
  intros H1 Hp Hs Hj Ht Hr Hk Hu Hf.
  pose proof (hostlookup_login_ok_client _ _ _ _ _ H1) as Hc.
  chain_start H1 Hc.
  rewrite Hp. run. rewrite Hs. run. rewrite Hj. run. rewrite Hu. run.
  rewrite Ht. run. rewrite Hr. run. rewrite Hk. run. rewrite Hf. run.
  reflexivity.
Qed.

Lemma authenticate_success_witness :
  authenticate_broker
    (Samples.server [Samples.lookup_ok; Samples.session_ok; Samples.feed_ok])
    (JStr "unused") Samples.fresh =
    (Ok (JStr "TRADE", JStr "FEED", JStr "U1", None),
     {| config := config Samples.rebased;
        sent :=
          [hostlookup_request (Samples.server []);
           session_request (Samples.server []) (JStr Samples.host) (JStr "K0j");
           feed_request (Samples.server []) "http://host:3000/apimarketdata"] |}).
Proof.
  exact (authenticate_success
           (Samples.server [Samples.lookup_ok; Samples.session_ok; Samples.feed_ok])
           (JStr "unused") Samples.fresh
           {| config := config Samples.fresh;
              sent := [hostlookup_request (Samples.server [])] |}
           {| config := config Samples.rebased;
              sent := [hostlookup_request (Samples.server []);
                       session_request (Samples.server [])
                         (JStr Samples.host) (JStr "K0j")] |}
           {| config := config Samples.rebased;
              sent := [hostlookup_request (Samples.server []);
                       session_request (Samples.server [])
                         (JStr Samples.host) (JStr "K0j");
                       feed_request (Samples.server [])
                         "http://host:3000/apimarketdata"] |}
           (JStr Samples.host) (JStr "K0j") (JStr "TRADE") (JStr "FEED") (JStr "U1")
           {| status_code := 200; json := Ok (JObj Samples.session_ok_body) |}
           Samples.session_ok_body [("token", JStr "TRADE")]
           eq_refl eq_refl eq_refl eq_refl eq_refl eq_refl eq_refl eq_refl eq_refl).
Defined.



(** X12: when the session login answers with a status other than 200 and
    an object as body, [authenticate_broker] returns "API error: " followed
    by the body's [message], or by "Authentication failed. Please try
    again." when there is none; the registry is unchanged and no feed
    request is sent. *)
Theorem authenticate_http_error (env : Env) (request_token : Json)
    (st st1 : State) (cs uk : Json) (r : Response)
    (body : list (string * Json)) :
  hostlookup_login env st = (Ok (cs, uk, None), st1) ->
  post env (session_request env cs uk) = PostReturns r ->
  status_code r <> 200%Z ->
  json r = Ok (JObj body) ->
  authenticate_broker env request_token st =
    (Ok (JNull, JNull, JNull,
         Some ("API error: "
               ++ match assoc "message" body with
                  | Some msg => format_value env msg
                  | None => "Authentication failed. Please try again."
                  end)),
     {| config := config st;
        sent := sent st ++ [hostlookup_request env; session_request env cs uk] |}).
Proof.
  intros H1 Hp Hs Hj.
  pose proof (hostlookup_login_ok_client _ _ _ _ _ H1) as Hc.
  pose proof (hostlookup_login_state _ _ _ _ H1) as ->.
  chain_start H1 Hc.
  rewrite Hp. run. apply Z.eqb_neq in Hs. rewrite Hs. run. rewrite Hj. run.
  unfold lookup_sent. rewrite Hc, <- app_assoc.
  destruct (assoc "message" body); reflexivity.
Qed.

Lemma authenticate_http_error_witness :
  authenticate_broker
    (Samples.server [Samples.lookup_ok; Samples.session_denied])
    (JStr "unused") Samples.fresh =
    (Ok (JNull, JNull, JNull, Some "API error: Invalid credentials"),
     {| config := config Samples.fresh;
        sent :=
          [hostlookup_request (Samples.server []);
           session_request (Samples.server []) (JStr Samples.host) (JStr "K0j")] |}).
Proof.
  apply (authenticate_http_error
           (Samples.server [Samples.lookup_ok; Samples.session_denied])
           (JStr "unused") Samples.fresh
           {| config := config Samples.fresh;
              sent := [hostlookup_request (Samples.server [])] |}
           (JStr Samples.host) (JStr "K0j")
           {| status_code := 401;
              json := Ok (JObj [("message", JStr "Invalid credentials")]) |}
           [("message", JStr "Invalid credentials")]);
    [reflexivity | reflexivity | discriminate | reflexivity].
Defined.



(** X14: when the shared HTTP client cannot be built, no entry point sends
    a request or touches the registry; each returns the text of the
    client's exception behind its own prefix. *)
Theorem no_client_no_request (env : Env) (request_token : Json) (st : State)
    (e : Exn) (m : string) :
  httpx_client_error env = Some e ->
  MARKET_DATA_URL (config st) = Some m ->
  hostlookup_login env st =
    (Ok (JNull, JNull, Some ("Error during hostlookup: " ++ str_exn env e)), st)
  /\ get_feed_token env st =
     (Ok (JNull, JNull, Some ("An exception occurred: " ++ str_exn env e)), st)
  /\ authenticate_broker env request_token st =
     (Ok (JNull, JNull, JNull,
          Some ("Error during authentication: " ++ str_exn env e)), st).
Proof.
  intros Hc Hm. split; [|split].
  - unfold hostlookup_login, hostlookup_try. run. rewrite Hc. run. reflexivity.
  - unfold get_feed_token, get_feed_token_try. run. rewrite Hm. run.
    rewrite Hc. run. reflexivity.
  - unfold authenticate_broker, authenticate_broker_try. run. rewrite Hc. run.
    reflexivity.
Qed.

Lemma no_client_no_request_witness :
  authenticate_broker
    {| environ := fun _ => None;
       httpx_client_error := Some (TransportError "no TLS backend");
       post := fun _ => PostRaises (TransportError "unreachable");
       str_exn := Samples.sample_str_exn;
       py_repr := fun _ => "<object>";
       netloc_check := fun _ => None |}
    (JStr "unused") Samples.fresh =
    (Ok (JNull, JNull, JNull, Some "Error during authentication: no TLS backend"),
     Samples.fresh).
Proof.
  exact (proj2 (proj2 (no_client_no_request
           {| environ := fun _ => None;
              httpx_client_error := Some (TransportError "no TLS backend");
              post := fun _ => PostRaises (TransportError "unreachable");
              str_exn := Samples.sample_str_exn;
              py_repr := fun _ => "<object>";
              netloc_check := fun _ => None |}
           (JStr "unused") Samples.fresh (TransportError "no TLS backend")
           "http://xtstradingnse.aryafingroup.in:3000/apimarketdata"
           eq_refl eq_refl))).
Defined.

(** X15: whatever makes the host lookup fail, [authenticate_broker] hands
    the lookup's error string on unchanged, with three [None] values, and
    stops there: its final state is the one the lookup left. *)
Theorem lookup_error_passed_on (env : Env) (request_token : Json)
    (st st1 : State) (a b : Json) (err : string) :
  httpx_client_error env = None ->
  hostlookup_login env st = (Ok (a, b, Some err), st1) ->
  authenticate_broker env request_token st =
    (Ok (JNull, JNull, JNull, Some err), st1).
Proof.
  intros Hc H1.
  unfold authenticate_broker, authenticate_broker_try.
  run. rewrite Hc. run. rewrite H1. run. reflexivity.
Qed.

Lemma lookup_error_passed_on_witness :
  authenticate_broker
    (Samples.server [(HOST_LOOKUP_URL, Samples.reply 503 (JStr "maintenance"))])
    (JStr "unused") Samples.fresh =
    (Ok (JNull, JNull, JNull,
         Some "Error during hostlookup: Unknown error or unexpected response."),
     {| config := config Samples.fresh;
        sent := [hostlookup_request (Samples.server [])] |}).
Proof.
  exact (lookup_error_passed_on
           (Samples.server [(HOST_LOOKUP_URL, Samples.reply 503 (JStr "maintenance"))])
           (JStr "unused") Samples.fresh
           {| config := config Samples.fresh;
              sent := [hostlookup_request (Samples.server [])] |}
           JNull JNull
           "Error during hostlookup: Unknown error or unexpected response."
           eq_refl eq_refl).
Defined.

Lemma update_base_url_sent (env : Env) (st st' : State) (v : Json)
    (r : Result unit) :
  update_base_url env v st = (r, st') -> sent st' = sent st.
Proof.
  intros H. pose proof (update_base_url_base env st v) as [_ E].
  now rewrite H in E.
Qed.

(** X16: one call of [authenticate_broker] sends at most three requests,
    each at most once and in a fixed order: what it adds to the log is an
    initial part of lookup request, session request, feed request. *)
Theorem authenticate_sends_chain_prefix (env : Env) (request_token : Json)
    (st : State) :
  exists l,
    sent (snd (authenticate_broker env request_token st)) = (sent st ++ l)%list
    /\ chain_prefix env l.
Proof.
  unfold authenticate_broker, authenticate_broker_try.
  destruct st as [cfg log].
  split_run.
  all: try match goal with
         | H : hostlookup_login ?en ?s = (Raise _, _) |- _ =>
             exfalso; destruct (hostlookup_login_returns en s) as (? & Ht & _);
             rewrite H in Ht; discriminate Ht
         end.
  all: repeat match goal with
         | H : hostlookup_login _ ?s = _ |- _ =>
             rewrite (hostlookup_login_state _ _ _ _ H) in *; clear H
         | H : get_feed_token ?en ?s = _ |- _ =>
             let t := fresh "t" in
             let Ht := fresh "Ht" in
             destruct (get_feed_token_returns en s) as (t & Ht & _);
             rewrite H in Ht; injection Ht as _ ->; clear H
         | H : update_base_url _ ?v ?s = (Ok _, _) |- _ =>
             let sch := fresh "sch" in
             let nl := fresh "nl" in
             let E := fresh "E" in
             destruct (update_base_url_Ok_inv _ _ _ _ _ H) as (sch & nl & E & ->);
             clear H
         | H : update_base_url _ ?v ?s = (Raise _, _) |- _ =>
             rewrite (update_base_url_sent _ _ _ _ _ H); clear H
         end.
  all: cbn; unfold feed_sent, lookup_sent; cbn;
    repeat match goal with H : httpx_client_error _ = _ |- _ => rewrite H end;
    rewrite <- ?app_assoc; cbn.
  all: try (exists []; split; [now rewrite app_nil_r | now left]).
  all: try (eexists; split; [reflexivity|]; unfold chain_prefix;
            first [ now (right; left)
                  | right; right; left; do 2 eexists; reflexivity
                  | right; right; right; do 3 eexists; reflexivity ]).
Qed.

Lemma hostlookup_login_error_nonempty (env : Env) (st st' : State)
    (a b : Json) (err : string) :
  hostlookup_login env st = (Ok (a, b, Some err), st') -> err <> "".
Proof.
  unfold hostlookup_login, hostlookup_try.
  destruct st as [cfg log].
  split_run; intros E; inversion E; subst; discriminate.
Qed.

Lemma authenticate_broker_error_nonempty (env : Env) (request_token : Json)
    (st st' : State) (a b c : Json) (err : string) :
  authenticate_broker env request_token st = (Ok (a, b, c, Some err), st') ->
  err <> "".
Proof.
  unfold authenticate_broker, authenticate_broker_try.
  destruct st as [cfg log].
  split_run; intros E; inversion E; subst; try discriminate.
  eapply hostlookup_login_error_nonempty; eassumption.
Qed.

(** X17: an error string returned by [hostlookup_login], [get_feed_token]
    or [authenticate_broker] is never empty, so a caller that tests the
    error for truth, as [authenticate_broker] does with the feed error,
    never takes a failure for a success. *)
Theorem errors_are_never_empty (env : Env) (request_token : Json) (st : State) :
  (forall a b err st',
      hostlookup_login env st = (Ok (a, b, Some err), st') -> err <> "")
  /\ (forall a b err st',
      get_feed_token env st = (Ok (a, b, Some err), st') -> err <> "")
  /\ (forall a b c err st',
      authenticate_broker env request_token st = (Ok (a, b, c, Some err), st') ->
      err <> "").
Proof.
  split; [|split].
  - intros a b err st' H. exact (hostlookup_login_error_nonempty _ _ _ _ _ _ H).
  - intros a b err st' H.
    destruct (get_feed_token_returns env st) as (t & E & _ & Hne).
    rewrite H in E. inversion E; subst t. exact (Hne _ _ _ eq_refl).
  - intros a b c err st' H.
    exact (authenticate_broker_error_nonempty _ _ _ _ _ _ _ _ H).
Qed.

(** X19: whether [update_base_url] returns, and the registry it leaves,
    depend on its argument only: if it returns from one state, it returns
    from every state, with the same three URLs. *)
Theorem update_base_url_overwrites (env : Env) (st1 st1' st2 : State) (v : Json) :
  update_base_url env v st1 = (Ok tt, st1') ->
  update_base_url env v st2 =
    (Ok tt, {| config := config st1'; sent := sent st2 |}).
Proof.
  intros H.
  destruct (update_base_url_Ok_inv env _ _ _ _ H) as (sch & nl & E & ->).
  now rewrite (update_base_url_ok env st2 v sch nl E).
Qed.

Lemma update_base_url_overwrites_witness :
  update_base_url (Samples.server []) (JStr Samples.host)
    {| config := {| BASE_URL := JStr "http://[";
                    MARKET_DATA_URL :=
                      Some "http://xtstradingnse.aryafingroup.in:3000/apimarketdata";
                    INTERACTIVE_URL :=
                      Some "http://xtstradingnse.aryafingroup.in:3000" |};
       sent := [] |} =
    (Ok tt, {| config := config Samples.rebased; sent := [] |}).
Proof.
  exact (update_base_url_overwrites (Samples.server []) Samples.fresh Samples.rebased
           {| config := {| BASE_URL := JStr "http://[";
                           MARKET_DATA_URL :=
                             Some "http://xtstradingnse.aryafingroup.in:3000/apimarketdata";
                           INTERACTIVE_URL :=
                             Some "http://xtstradingnse.aryafingroup.in:3000" |};
              sent := [] |}
           (JStr Samples.host) eq_refl).
Defined.

(** X20: when [urlparse] rejects the new base with exception [e],
    [update_base_url] raises [e] after it has stored the new base: the two
    derived URLs are the ones it found, and nothing is sent. *)
Theorem update_base_url_rejected (env : Env) (st : State) (v : Json) (e : Exn) :
  urlparse env v = Raise e ->
  update_base_url env v st =
    (Raise e,
     {| config := {| BASE_URL := v;
                     MARKET_DATA_URL := MARKET_DATA_URL (config st);
                     INTERACTIVE_URL := INTERACTIVE_URL (config st) |};
        sent := sent st |}).
Proof. intros H. exact (update_base_url_raise env st v e H). Qed.

Lemma update_base_url_rejected_witness :
  update_base_url (Samples.server []) (JStr "https://host]:8443/x") Samples.rebased =
    (Raise (ValueError "Invalid IPv6 URL"),
     {| config := {| BASE_URL := JStr "https://host]:8443/x";
                     MARKET_DATA_URL := Some "http://host:3000/apimarketdata";
                     INTERACTIVE_URL := Some Samples.host |};
        sent := [] |}).
Proof.
  exact (update_base_url_rejected (Samples.server []) Samples.rebased
           (JStr "https://host]:8443/x") (ValueError "Invalid IPv6 URL") eq_refl).
Defined.

Lemma authenticate_broker_token_state (env : Env) (request_token : Json)
    (st : State) :
  exists token feed_token user_id err st',
    authenticate_broker env request_token st =
      (Ok (token, feed_token, user_id, err), st')
    /\ (token <> JNull ->
        exists cs uk scheme netloc,
          hostlookup_login env st =
            (Ok (cs, uk, None),
             {| config := config st;
                sent := sent st ++ [hostlookup_request env] |})
          /\ urlparse env cs = Ok (scheme, netloc)
          /\ config st' =
             {| BASE_URL := cs;
                MARKET_DATA_URL :=
                  Some (scheme ++ "://" ++ netloc ++ "/apimarketdata");
                INTERACTIVE_URL := Some (format_value env cs) |}
          /\ sent st' = (sent st ++
                [hostlookup_request env; session_request env cs uk;
                 feed_request env
                   (scheme ++ "://" ++ netloc ++ "/apimarketdata")])%list).
Proof.
  unfold authenticate_broker, authenticate_broker_try.
  destruct st as [cfg log].
  split_run.
  all: repeat match goal with
         | H : hostlookup_login ?en ?s = _ |- _ =>
             let t := fresh "t" in
             let Ht := fresh "Ht" in
             destruct (hostlookup_login_returns en s) as (t & Ht & _ & _);
             rewrite H in Ht; inversion Ht; subst; clear Ht;
             revert H
         | H : get_feed_token ?en ?s = _ |- _ =>
             let t := fresh "t" in
             let Ht := fresh "Ht" in
             destruct (get_feed_token_returns en s) as (t & Ht & _ & _);
             rewrite H in Ht; inversion Ht; subst; clear Ht H
         | H : update_base_url _ ?v ?s = (Ok _, _) |- _ =>
             let sch := fresh "sch" in
             let nl := fresh "nl" in
             let E := fresh "E" in
             destruct (update_base_url_Ok_inv _ _ _ _ _ H) as (sch & nl & E & ->);
             clear H
         end.
  all: intros; do 5 eexists; (split; [reflexivity|]).
  all: intros Htok; try (now elim Htok).
  all: match goal with
       | H : hostlookup_login _ _ = (Ok (?cs, ?uk, None), _),
         E : urlparse _ ?cs = Ok (?sch, ?nl) |- _ =>
           exists cs, uk, sch, nl
       end.
  all: unfold feed_sent, lookup_sent in *; cbn in *;
    repeat match goal with H : httpx_client_error _ = _ |- _ => rewrite H in * end.
  all: repeat split; try assumption; rewrite <- ?app_assoc; reflexivity.
Qed.

(** X18: whenever [authenticate_broker] returns a session token that is not
    [None], the registry it leaves is the one derived from the connection
    string of the lookup, and the feed login of that call went to the new
    market-data URL, not to the one the registry held before. *)
Theorem session_token_implies_rebased (env : Env) (request_token : Json)
    (st st' : State) (token feed_token user_id : Json) (err : option string) :
  authenticate_broker env request_token st =
    (Ok (token, feed_token, user_id, err), st') ->
  token <> JNull ->
  exists cs uk scheme netloc,
    hostlookup_login env st =
      (Ok (cs, uk, None),
       {| config := config st; sent := sent st ++ [hostlookup_request env] |})
    /\ urlparse env cs = Ok (scheme, netloc)
    /\ config st' =
       {| BASE_URL := cs;
          MARKET_DATA_URL := Some (scheme ++ "://" ++ netloc ++ "/apimarketdata");
          INTERACTIVE_URL := Some (format_value env cs) |}
    /\ sent st' = (sent st ++
          [hostlookup_request env; session_request env cs uk;
           feed_request env (scheme ++ "://" ++ netloc ++ "/apimarketdata")])%list.
Proof.
  intros H Htok.
  destruct (authenticate_broker_token_state env request_token st)
    as (a & b & c & d & s & E & Hst).
  rewrite H in E. inversion E; subst. now apply Hst.
Qed.

Lemma session_token_implies_rebased_witness :
  exists cs uk scheme netloc,
    hostlookup_login
      (Samples.server [Samples.lookup_ok; Samples.session_ok; Samples.feed_down])
      Samples.fresh =
      (Ok (cs, uk, None),
       {| config := config Samples.fresh;
          sent := sent Samples.fresh ++ [hostlookup_request (Samples.server [])] |})
    /\ urlparse (Samples.server []) cs = Ok (scheme, netloc)
    /\ config Samples.rebased =
       {| BASE_URL := cs;
          MARKET_DATA_URL := Some (scheme ++ "://" ++ netloc ++ "/apimarketdata");
          INTERACTIVE_URL := Some (format_value (Samples.server []) cs) |}
    /\ [hostlookup_request (Samples.server []);
        session_request (Samples.server []) (JStr Samples.host) (JStr "K0j");
        feed_request (Samples.server []) "http://host:3000/apimarketdata"] =
       (sent Samples.fresh ++
          [hostlookup_request (Samples.server []);
           session_request (Samples.server []) cs uk;
           feed_request (Samples.server [])
             (scheme ++ "://" ++ netloc ++ "/apimarketdata")])%list.
Proof.
  apply (session_token_implies_rebased
           (Samples.server [Samples.lookup_ok; Samples.session_ok; Samples.feed_down])
           (JStr "unused") Samples.fresh
           {| config := config Samples.rebased;
              sent := [hostlookup_request (Samples.server []);
                       session_request (Samples.server [])
                         (JStr Samples.host) (JStr "K0j");
                       feed_request (Samples.server [])
                         "http://host:3000/apimarketdata"] |}
           (JStr "TRADE") JNull JNull
           (Some "Feed token error: API Error (Feed): Service unavailable"));
    [reflexivity | discriminate].
Defined.

Lemma hostlookup_login_result_indep (env : Env) (st1 st2 : State) :
  fst (hostlookup_login env st1) = fst (hostlookup_login env st2).
Proof.
  unfold hostlookup_login, hostlookup_try.
  destruct st1 as [c1 l1], st2 as [c2 l2].
  split_run; reflexivity.
Qed.

Lemma get_feed_token_result_indep (env : Env) (st1 st2 : State) :
  MARKET_DATA_URL (config st1) = MARKET_DATA_URL (config st2) ->
  fst (get_feed_token env st1) = fst (get_feed_token env st2).
Proof.
  unfold get_feed_token, get_feed_token_try.
  destruct st1 as [[b1 m1 i1] l1], st2 as [[b2 m2 i2] l2]. cbn.
  intros ->.
  split_run; reflexivity.
Qed.

(** X21: the tuple [authenticate_broker] returns does not depend on the
    state it starts from: neither the URLs the registry held nor the
    requests made earlier change the outcome. *)
Theorem result_independent_of_registry (env : Env) (request_token : Json)
    (st1 st2 : State) :
  fst (authenticate_broker env request_token st1) =
  fst (authenticate_broker env request_token st2).
Proof.
  unfold authenticate_broker, authenticate_broker_try.
  run. destruct (httpx_client_error env) as [e|] eqn:Hc; run; [reflexivity|].
  destruct (hostlookup_login_returns env st1) as (t1 & E1 & _).
  destruct (hostlookup_login_returns env st2) as (t2 & E2 & _).
  pose proof (hostlookup_login_result_indep env st1 st2) as Ht.
  rewrite E1, E2 in Ht. cbn in Ht. injection Ht as <-.
  rewrite E1, E2. run.
  destruct t1 as [[cs uk] [err|]]; run; [reflexivity|].
  destruct (post env _) as [e|r]; run; [reflexivity|].
  destruct (status_code r =? 200)%Z; run.
  2:{ destruct (json r) as [d|e]; run; [|reflexivity].
      destruct (py_get_default d _ _); reflexivity. }
  destruct (json r) as [body|e]; run; [|reflexivity].
  destruct (urlparse env cs) as [[sch nl]|e] eqn:Hu.
  2:{ rewrite !(update_base_url_raise env _ cs e Hu). reflexivity. }
  rewrite !(update_base_url_ok env _ cs sch nl Hu). run.
  destruct (py_get body "type") as [ty|e]; run; [|reflexivity].
  destruct (py_eq_str ty "success"); run; [|reflexivity].
  destruct (py_getitem body "result") as [inner|e]; run; [|reflexivity].
  destruct (py_getitem inner "token") as [token|e]; run; [|reflexivity].
  match goal with
  | |- context [get_feed_token env ?s1] =>
      match goal with
      | |- fst _ = fst ?rhs =>
          match rhs with
          | context [get_feed_token env ?s2] =>
              destruct (get_feed_token_returns env s1) as (f1 & F1 & _);
              destruct (get_feed_token_returns env s2) as (f2 & F2 & _);
              pose proof (get_feed_token_result_indep env s1 s2 eq_refl) as Hf;
              rewrite F1, F2 in Hf; cbn in Hf; injection Hf as <-;
              rewrite F1, F2
          end
      end
  end.
  run. destruct f1 as [[ft uid] [fe|]]; run; [|reflexivity].
  destruct fe; reflexivity.
Qed.

(** X22: [authenticate_broker] writes nothing into the registry but the
    connection string of its own lookup: after any call the registry is
    either exactly as before, or its base URL is the connection string the
    host lookup returned in that call. *)
Theorem registry_holds_old_or_looked_up_base (env : Env) (request_token : Json)
    (st : State) :
  config (snd (authenticate_broker env request_token st)) = config st
  \/ exists cs uk st1,
       hostlookup_login env st = (Ok (cs, uk, None), st1)
       /\ BASE_URL (config (snd (authenticate_broker env request_token st))) = cs.
Proof.
  unfold authenticate_broker, authenticate_broker_try.
  destruct st as [cfg log].
  split_run.
  all: try match goal with
         | H : hostlookup_login ?en ?s = (Raise _, _) |- _ =>
             exfalso; destruct (hostlookup_login_returns en s) as (? & Ht & _);
             rewrite H in Ht; discriminate Ht
         end.
  all: try match goal with
         | H : get_feed_token _ _ = _ |- _ =>
             rewrite (get_feed_token_config _ _ _ _ H); clear H
         end.
  all: try match goal with
         | H : update_base_url ?en ?v ?s = (_, ?s') |- _ =>
             let Hb := fresh "Hb" in
             pose proof (update_base_url_base en s v) as [Hb _];
             rewrite H in Hb; cbn in Hb; clear H;
             right; do 3 eexists; split; [reflexivity | exact Hb]
         end.
  all: left;
    match goal with
    | H : hostlookup_login _ _ = _ |- _ =>
        rewrite (hostlookup_login_state _ _ _ _ H); reflexivity
    | _ => reflexivity
    end.
Qed.



